(** * gh_submit: the GitHub submission core of [edenscm.ext.github]

    A shallow embedding of [eden/scm/edenscm/ext/github/gh_submit.py].

    - Values decoded from the service's JSON are kept dynamically typed
      ([json]), with Python's subscript and truthiness rules written out.
    - A Python exception is an explicit [Raise] outcome.
    - The coroutines are run sequentially over a [session] that holds the
      transport's own state and the list of requests issued so far. *)

From Stdlib Require Import String Ascii List ZArith Bool Lia.
Import ListNotations.
Open Scope string_scope.
Set Warnings "-register-all".

(** ** Python values *)

(** What [json.loads] produces: [None], [bool], [int], [str], [list] and
    [dict].  A [dict] is an association list; [dict_get] reads the first
    binding of a key (a Python dict holds at most one). *)
Inductive json : Type :=
| JNull
| JBool (b : bool)
| JNum (n : Z)
| JStr (s : string)
| JArr (items : list json)
| JObj (fields : list (string * json)).

(** The exceptions the code under study can run into. *)
Inductive exn : Type :=
| KeyError (key : string)
| TypeError
| ValueError.

Inductive outcome (A : Type) : Type :=
| Return (a : A)
| Raise (e : exn).
Arguments Return {A} a.
Arguments Raise {A} e.

Definition obind {A B : Type} (m : outcome A) (k : A -> outcome B) : outcome B :=
  match m with
  | Return a => k a
  | Raise e => Raise e
  end.

Fixpoint dict_get (fields : list (string * json)) (key : string) : option json :=
  match fields with
  | [] => None
  | (k, v) :: rest => if String.eqb k key then Some v else dict_get rest key
  end.

(** [obj[key]] for a [str] key: a dict yields the value or [KeyError];
    [None], numbers, strings and lists raise [TypeError]. *)
Definition getitem (obj : json) (key : string) : outcome json :=
  match obj with
  | JObj fields =>
      match dict_get fields key with
      | Some v => Return v
      | None => Raise (KeyError key)
      end
  | _ => Raise TypeError
  end.

(** Chained subscripts [obj[k1][k2]...], evaluated left to right. *)
Fixpoint subscript (obj : json) (keys : list string) : outcome json :=
  match keys with
  | [] => Return obj
  | k :: ks => obind (getitem obj k) (fun v => subscript v ks)
  end.

(** [bool(v)], as taken by [if v:]. *)
Definition truthy (v : json) : bool :=
  match v with
  | JNull => false
  | JBool b => b
  | JNum n => negb (Z.eqb n 0)
  | JStr s => negb (String.eqb s "")
  | JArr items => match items with [] => false | _ => true end
  | JObj fields => match fields with [] => false | _ => true end
  end.

(** [v is None]. *)
Definition is_None (v : json) : bool :=
  match v with
  | JNull => true
  | _ => false
  end.

(** ** String helpers *)

Definition newline : string := String (ascii_of_nat 10) EmptyString.

(** [sub in s] on Python strings. *)
Fixpoint contains (sub s : string) : bool :=
  if String.prefix sub s then true
  else match s with
       | EmptyString => false
       | String _ rest => contains sub rest
       end.

(** [template % arg] for one [str] argument.  The directives [%s] and [%%]
    are modelled; a template that leaves the argument unused, or asks for a
    second one, raises [TypeError], and a dangling [%] raises [ValueError].
    Every other directive is outside the model and reported as
    [ValueError]. *)
Fixpoint percent_format (template : string) (arg : option string) : outcome string :=
  match template with
  | EmptyString =>
      match arg with
      | Some _ => Raise TypeError
      | None => Return EmptyString
      end
  | String "%" (String "s" rest) =>
      match arg with
      | Some a => obind (percent_format rest None) (fun r => Return (a ++ r))
      | None => Raise TypeError
      end
  | String "%" (String "%" rest) =>
      obind (percent_format rest arg) (fun r => Return (String "%" r))
  | String "%" _ => Raise ValueError
  | String c rest =>
      obind (percent_format rest arg) (fun r => Return (String c r))
  end.

(** ** Result *)

(** Modelled from the spec: [ghstack.github_gh_cli.Result] is imported, not
    defined, by gh_submit.py.  The spec gives it exactly two variants, a
    success payload or an error message. *)
Inductive Result (T : Type) : Type :=
| Ok (ok : T)
| Error (error : string).
Arguments Ok {T} ok.
Arguments Error {T} error.

Definition is_error {T : Type} (r : Result T) : bool :=
  match r with
  | Ok _ => false
  | Error _ => true
  end.

(** ** Repository *)

Inductive Repository : Type := mkRepository {
  id : json;
  hostname : string;
  owner : json;
  name : json;
  default_branch : json;
  is_fork : json;
  upstream : option Repository
}.

(** [if self.upstream:] tests for [None]: a dataclass instance defines
    neither [__bool__] nor [__len__], so it is always truthy. *)
Definition get_base_branch (self : Repository) : json :=
  match upstream self with
  | Some u => default_branch u
  | None => default_branch self
  end.

Definition get_upstream_owner_and_name (self : Repository) : json * json :=
  match upstream self with
  | Some u => (owner u, name u)
  | None => (owner self, name self)
  end.

(** ** PullRequestDetails and PullRequestId *)

Record PullRequestDetails : Type := mkPullRequestDetails {
  node_id : json;
  number : Z;
  url : json;
  head_oid : json;
  head_branch_name : json
}.

(** Modelled from the spec: [.pullrequest.PullRequestId] is imported, not
    defined, by gh_submit.py.  The spec describes it as a
    (hostname, owner, name, number) tuple that is a read-only input;
    gh_submit.py reads [pr.owner], [pr.name], [pr.number] and calls
    [pr.get_hostname()]. *)
Record PullRequestId : Type := mkPullRequestId {
  pr_hostname : string;
  pr_owner : string;
  pr_name : string;
  pr_number : Z
}.

Definition get_hostname (pr : PullRequestId) : string := pr_hostname pr.

(** ** Requests handed to the transport *)

(** [_Params = Union[str, int, bool]] *)
Inductive _Params : Type :=
| PStr (s : string)
| PInt (n : Z)
| PBool (b : bool).

(** One call [gh_cli.make_request(params, hostname=..., endpoint=...)];
    [endpoint] is [None] when the keyword is not passed. *)
Record request : Type := mkRequest {
  params : list (string * _Params);
  request_hostname : string;
  endpoint : option string
}.

Fixpoint params_get (ps : list (string * _Params)) (key : string) : option _Params :=
  match ps with
  | [] => None
  | (k, v) :: rest => if String.eqb k key then Some v else params_get rest key
  end.

(** The documents of [.consts.query]: opaque text supplied from outside. *)
Record query_documents : Type := mkQueryDocuments {
  GRAPHQL_GET_REPOSITORY : string;
  GRAPHQL_GET_PULL_REQUEST : string;
  GRAPHQL_UPDATE_PULL_REQUEST : string;
  GRAPHQL_CREATE_BRANCH : string;
  GRAPHQL_MERGE_BRANCH : string;
  GRAPHQL_GET_LOGIN : string
}.

(** The message template handed to [_] in [_parse_repository_from_dict]. *)
Definition NO_DEFAULT_BRANCH_TEMPLATE : string :=
  "This repository has no default branch. This is likely because it is empty."
  ++ newline ++ newline
  ++ "Consider using %s to initialize your" ++ newline
  ++ "repository." ++ newline.

(** The text of that message once [%s] is replaced by [link]. *)
Definition no_default_branch_text (link : string) : string :=
  "This repository has no default branch. This is likely because it is empty."
  ++ newline ++ newline
  ++ "Consider using " ++ link ++ " to initialize your" ++ newline
  ++ "repository." ++ newline.

Definition new_main_link (hostname owner name : string) : string :=
  "https://" ++ hostname ++ "/" ++ owner ++ "/" ++ name ++ "/new/main".

(** ** Replies that follow the GET_REPOSITORY schema *)

(** One repository node as the service's schema types it: [id], [login] and
    [name] are strings, [isFork] is a boolean, [defaultBranchRef] is [null]
    or an object with a string [name]. *)
Record repo_node : Type := mkRepoNode {
  node_ident : string;
  node_login : string;
  node_name : string;
  node_is_fork : bool;
  node_default_branch : option string
}.

Definition as_str (v : outcome json) : option string :=
  match v with
  | Return (JStr s) => Some s
  | _ => None
  end.

Definition as_bool (v : outcome json) : option bool :=
  match v with
  | Return (JBool b) => Some b
  | _ => None
  end.

Definition view_branch_ref (v : outcome json) : option (option string) :=
  match v with
  | Return JNull => Some None
  | Return branch_ref =>
      match as_str (getitem branch_ref "name") with
      | Some b => Some (Some b)
      | None => None
      end
  | Raise _ => None
  end.

(** [view_repo j = Some n]: the JSON object [j] is a schema-conformant
    repository node carrying the data [n] (other keys are ignored). *)
Definition view_repo (j : json) : option repo_node :=
  match as_str (subscript j ["owner"; "login"]),
        as_str (getitem j "name"),
        view_branch_ref (getitem j "defaultBranchRef"),
        as_str (getitem j "id"),
        as_bool (getitem j "isFork") with
  | Some login, Some nm, Some branch, Some ident, Some fork =>
      Some {| node_ident := ident;
              node_login := login;
              node_name := nm;
              node_is_fork := fork;
              node_default_branch := branch |}
  | _, _, _, _, _ => None
  end.

(** [view_reply ok = Some (target, parent)]: the reply holds a conformant
    target node under [data.repository], whose [parent] is [null]
    ([parent = None]) or a conformant node. *)
Definition view_reply (ok : json) : option (repo_node * option repo_node) :=
  match subscript ok ["data"; "repository"] with
  | Return repo =>
      match view_repo repo, getitem repo "parent" with
      | Some target, Return JNull => Some (target, None)
      | Some target, Return parent =>
          match view_repo parent with
          | Some p => Some (target, Some p)
          | None => None
          end
      | _, _ => None
      end
  | Raise _ => None
  end.

(** The [Repository] built from a node that has a default branch. *)
Definition repository_of (n : repo_node) (hostname branch : string)
    (upstream : option Repository) : Repository :=
  {| id := JStr (node_ident n);
     hostname := hostname;
     owner := JStr (node_login n);
     name := JStr (node_name n);
     default_branch := JStr branch;
     is_fork := JBool (node_is_fork n);
     upstream := upstream |}.

(** ** A scripted transport, for running the operations on examples *)

(** The transport state is the list of replies still to be served; one
    reply is consumed per request. *)
Definition scripted : Type := list (Result json).

Definition scripted_make_request (_ : request) (w : scripted) : Result json * scripted :=
  match w with
  | reply :: rest => (reply, rest)
  | [] => (Error "no reply scripted", [])
  end.

(** [str] stand-in that is only ever applied to non-string values. *)
Definition plain_str (v : json) : string :=
  match v with
  | JNull => "None"
  | JBool true => "True"
  | JBool false => "False"
  | JStr s => s
  | _ => "?"
  end.

Definition untranslated (message : string) : string := message.

Definition documents : query_documents :=
  {| GRAPHQL_GET_REPOSITORY := "query GetRepository";
     GRAPHQL_GET_PULL_REQUEST := "query GetPullRequest";
     GRAPHQL_UPDATE_PULL_REQUEST := "mutation UpdatePullRequest";
     GRAPHQL_CREATE_BRANCH := "mutation CreateBranch";
     GRAPHQL_MERGE_BRANCH := "mutation MergeBranch";
     GRAPHQL_GET_LOGIN := "query GetLogin" |}.

(** Sample replies. *)
Definition repo_json (ident login nm : string) (fork : bool) (branch parent : json) : json :=
  JObj [("id", JStr ident);
        ("owner", JObj [("id", JStr "O_1"); ("login", JStr login)]);
        ("name", JStr nm);
        ("isFork", JBool fork);
        ("defaultBranchRef", branch);
        ("parent", parent)].

Definition branch_json (nm : string) : json := JObj [("name", JStr nm)].

Definition reply_of (repo : json) : json := JObj [("data", JObj [("repository", repo)])].

Definition update_reply (ident : string) : json :=
  JObj [("data",
         JObj [("updatePullRequest", JObj [("pullRequest", JObj [("id", JStr ident)])])])].

(** The reply to GET_PULL_REQUEST for a number that names no pull request:
    [pullRequest] is [null]. *)
Definition missing_pull_request_reply : json :=
  JObj [("data", JObj [("repository", JObj [("pullRequest", JNull)])])].

(** acme/widgets, a fork of upstream-org/widgets; both have a default branch. *)
Definition fork_reply : json :=
  reply_of (repo_json "R_2" "acme" "widgets" true (branch_json "dev")
              (repo_json "R_1" "upstream-org" "widgets" false (branch_json "main") JNull)).

(** The same reply with [isFork] false on the target, the parent still there. *)
Definition stray_parent_reply : json :=
  reply_of (repo_json "R_2" "acme" "widgets" false (branch_json "dev")
              (repo_json "R_1" "upstream-org" "widgets" false (branch_json "main") JNull)).

(** The parent is itself marked as a fork. *)
Definition fork_of_fork_reply : json :=
  reply_of (repo_json "R_2" "acme" "widgets" true (branch_json "dev")
              (repo_json "R_1" "middle-org" "widgets" true (branch_json "main") JNull)).

(** An empty repository without a parent. *)
Definition empty_target_reply : json :=
  reply_of (repo_json "R_2" "acme" "widgets" false JNull JNull).

(** A fork of an empty repository. *)
Definition empty_parent_reply : json :=
  reply_of (repo_json "R_2" "acme" "widgets" true (branch_json "dev")
              (repo_json "R_1" "upstream-org" "gadgets" false JNull JNull)).

(** An empty fork of an empty repository. *)
Definition empty_both_reply : json :=
  reply_of (repo_json "R_2" "acme" "widgets" true JNull
              (repo_json "R_1" "upstream-org" "gadgets" false JNull JNull)).

Definition acme_node (fork : bool) (branch : option string) : repo_node :=
  mkRepoNode "R_2" "acme" "widgets" fork branch.

Definition parent_node (login nm : string) (fork : bool) (branch : option string) : repo_node :=
  mkRepoNode "R_1" login nm fork branch.

(** The reply to MERGE_BRANCH with merge commit [oid]. *)
Definition merge_reply (oid : string) : json :=
  JObj [("data", JObj [("mergeBranch", JObj [("mergeCommit", JObj [("oid", JStr oid)])])])].

(** A reply to GET_PULL_REQUEST; it also carries a [number] of its own. *)
Definition pull_request_reply : json :=
  JObj [("data",
         JObj [("repository",
                JObj [("pullRequest",
                       JObj [("id", JStr "PR_7");
                             ("number", JNum 99);
                             ("url", JStr "https://github.com/acme/widgets/pull/7");
                             ("headRefOid", JStr "0a1b2c");
                             ("headRefName", JStr "pr7")])])])].

(** acme/widgets with a string where the parent object should be. *)
Definition string_parent_reply : json :=
  reply_of (repo_json "R_2" "acme" "widgets" true (branch_json "dev") (JStr "upstream")).

(** A repository node with no default branch, no [id] and no [isFork]. *)
Definition bare_empty_node : json :=
  JObj [("owner", JObj [("login", JStr "acme")]);
        ("name", JStr "widgets");
        ("defaultBranchRef", JNull)].

(** The closed form of [get_repository] on a conformant reply whose
    message template is left untranslated (lemma [get_repository_conformant]
    proves the two agree). *)
Definition resolved (hostname : string) (target : repo_node) (parent : option repo_node)
  : Result Repository :=
  let missing (n : repo_node) : Result Repository :=
    Error (no_default_branch_text (new_main_link hostname (node_login n) (node_name n))) in
  match parent with
  | Some p =>
      match node_default_branch p with
      | None => missing p
      | Some pb =>
          match node_default_branch target with
          | None => missing target
          | Some tb =>
              Ok (repository_of target hostname tb (Some (repository_of p hostname pb None)))
          end
      end
  | None =>
      match node_default_branch target with
      | None => missing target
      | Some tb => Ok (repository_of target hostname tb None)
      end
  end.

(** The node whose missing default branch is reported when the target has
    none: the parent is parsed first, so a parent without a default branch
    takes precedence. *)
Definition reported_node (target : repo_node) (parent : option repo_node) : repo_node :=
  match parent with
  | Some p =>
      match node_default_branch p with
      | None => p
      | Some _ => target
      end
  | None => target
  end.

(** The transport's calling convention: a request without an endpoint goes
    to the query API and carries its document under [query]; a request with
    an endpoint goes to that resource and carries no [query]. *)
Definition well_addressed (req : request) : bool :=
  match endpoint req, params_get (params req) "query" with
  | None, Some (PStr _) => true
  | Some _, None => true
  | _, _ => false
  end.

(** The fields of a parsed Repository, as paths into the node it was read
    from. *)
Definition read_from (node : json) (r : Repository) : Prop :=
  getitem node "id" = Return (id r)
  /\ subscript node ["owner"; "login"] = Return (owner r)
  /\ getitem node "name" = Return (name r)
  /\ subscript node ["defaultBranchRef"; "name"] = Return (default_branch r)
  /\ getitem node "isFork" = Return (is_fork r).

(** ** The operations of gh_submit.py *)

Section GhSubmit.

(** [gh_cli.make_request]: the transport, with whatever state it keeps. *)
Variable world : Type.
Variable make_request : request -> world -> Result json * world.
(** [edenscm.i18n._]: message translation. *)
Variable gettext : string -> string.
(** Python's [str()] on values that are not already strings. *)
Variable str : json -> string.
(** [.consts.query] *)
Variable query : query_documents.

Record session : Type := mkSession {
  transport : world;
  issued : list request
}.

(** A coroutine: runs from a session, ends with a value or an exception. *)
Definition M (A : Type) : Type := session -> outcome A * session.

Definition ret {A : Type} (a : A) : M A := fun s => (Return a, s).

Definition bind {A B : Type} (m : M A) (k : A -> M B) : M B :=
  fun s =>
    match m s with
    | (Return a, s') => k a s'
    | (Raise e, s') => (Raise e, s')
    end.

Definition lift {A : Type} (o : outcome A) : M A := fun s => (o, s).

(** [await gh_cli.make_request(params, hostname=hostname, endpoint=endpoint)] *)
Definition await_make_request (req : request) : M (Result json) :=
  fun s =>
    let (result, w) := make_request req (transport s) in
    (Return result, {| transport := w; issued := issued s ++ [req] |}).

Notation "x <- m ;; k" := (bind m (fun x => k))
  (at level 61, m at next level, right associativity).
Notation "x <~ m ;; k" := (obind m (fun x => k))
  (at level 61, m at next level, right associativity).

(** [format(v, '')] inside an f-string. *)
Definition fstr (v : json) : string :=
  match v with
  | JStr s => s
  | _ => str v
  end.

Definition _parse_repository_from_dict
    (repo_obj : json) (hostname : string) (upstream : option Repository)
  : outcome (Result Repository) :=
  owner_obj <~ getitem repo_obj "owner" ;;
  owner <~ getitem owner_obj "login" ;;
  name <~ getitem repo_obj "name" ;;
  branch_ref <~ getitem repo_obj "defaultBranchRef" ;;
  if is_None branch_ref then
    error_message <~ percent_format (gettext NO_DEFAULT_BRANCH_TEMPLATE)
                       (Some (new_main_link hostname (fstr owner) (fstr name))) ;;
    Return (Error error_message)
  else
    id <~ getitem repo_obj "id" ;;
    default_branch <~ getitem branch_ref "name" ;;
    is_fork <~ getitem repo_obj "isFork" ;;
    Return (Ok {| id := id;
                  hostname := hostname;
                  owner := owner;
                  name := name;
                  default_branch := default_branch;
                  is_fork := is_fork;
                  upstream := upstream |}).

(** [if result.is_error(): return result] hands the same error on; the
    match below is that test on the two-variant [Result]. *)
Definition get_repository (hostname owner name : string) : M (Result Repository) :=
  let params := [("query", PStr (GRAPHQL_GET_REPOSITORY query));
                 ("owner", PStr owner);
                 ("name", PStr name)] in
  result <- await_make_request (mkRequest params hostname None) ;;
  match result with
  | Error e => ret (Error e)
  | Ok ok =>
      data <- lift (getitem ok "data") ;;
      repo <- lift (getitem data "repository") ;;
      parent <- lift (getitem repo "parent") ;;
      if truthy parent then
        result <- lift (_parse_repository_from_dict parent hostname None) ;;
        match result with
        | Error e => ret (Error e)
        | Ok upstream =>
            lift (_parse_repository_from_dict repo hostname (Some upstream))
        end
      else
        lift (_parse_repository_from_dict repo hostname None)
  end.

(** The one request [get_repository] sends. *)
Definition repository_request (hostname owner name : string) : request :=
  mkRequest [("query", PStr (GRAPHQL_GET_REPOSITORY query));
             ("owner", PStr owner);
             ("name", PStr name)] hostname None.

Definition get_pull_request_details (pr : PullRequestId) : M (Result PullRequestDetails) :=
  let params := [("query", PStr (GRAPHQL_GET_PULL_REQUEST query));
                 ("owner", PStr (pr_owner pr));
                 ("name", PStr (pr_name pr));
                 ("number", PInt (pr_number pr))] in
  result <- await_make_request (mkRequest params (get_hostname pr) None) ;;
  match result with
  | Error e => ret (Error e)
  | Ok ok =>
      data <- lift (subscript ok ["data"; "repository"; "pullRequest"]) ;;
      node_id <- lift (getitem data "id") ;;
      url <- lift (getitem data "url") ;;
      head_oid <- lift (getitem data "headRefOid") ;;
      head_branch_name <- lift (getitem data "headRefName") ;;
      ret (Ok {| node_id := node_id;
                 number := pr_number pr;
                 url := url;
                 head_oid := head_oid;
                 head_branch_name := head_branch_name |})
  end.

Definition create_pull_request_placeholder_issue (hostname owner name : string)
  : M (Result json) :=
  let endpoint := "repos/" ++ owner ++ "/" ++ name ++ "/issues" in
  let params := [("title", PStr "placeholder for pull request")] in
  result <- await_make_request (mkRequest params hostname (Some endpoint)) ;;
  match result with
  | Error e => ret (Error e)
  | Ok ok =>
      number <- lift (getitem ok "number") ;;
      ret (Ok number)
  end.

Definition create_pull_request
    (hostname owner name base head body : string) (issue : Z) (is_draft : bool)
  : M (Result json) :=
  let endpoint := "repos/" ++ owner ++ "/" ++ name ++ "/pulls" in
  let params := [("base", PStr base);
                 ("head", PStr head);
                 ("body", PStr body);
                 ("issue", PInt issue);
                 ("draft", PBool is_draft)] in
  await_make_request (mkRequest params hostname (Some endpoint)).

Definition update_pull_request (hostname node_id title body : string) : M (Result json) :=
  let params := [("query", PStr (GRAPHQL_UPDATE_PULL_REQUEST query));
                 ("pullRequestId", PStr node_id);
                 ("title", PStr title);
                 ("body", PStr body)] in
  result <- await_make_request (mkRequest params hostname None) ;;
  match result with
  | Error e => ret (Error e)
  | Ok ok =>
      pr_id <- lift (subscript ok ["data"; "updatePullRequest"; "pullRequest"; "id"]) ;;
      ret (Ok pr_id)
  end.

Definition create_branch (hostname repo_id branch_name oid : string) : M (Result json) :=
  let params := [("query", PStr (GRAPHQL_CREATE_BRANCH query));
                 ("repositoryId", PStr repo_id);
                 ("name", PStr ("refs/heads/" ++ branch_name));
                 ("oid", PStr oid)] in
  result <- await_make_request (mkRequest params hostname None) ;;
  match result with
  | Error e => ret (Error e)
  | Ok ok =>
      ref_id <- lift (subscript ok ["data"; "createRef"; "ref"; "id"]) ;;
      ret (Ok ref_id)
  end.

Definition merge_into_branch (hostname repo_id oid_to_merge branch_name : string)
  : M (Result json) :=
  let params := [("query", PStr (GRAPHQL_MERGE_BRANCH query));
                 ("repositoryId", PStr repo_id);
                 ("base", PStr branch_name);
                 ("head", PStr oid_to_merge)] in
  result <- await_make_request (mkRequest params hostname None) ;;
  match result with
  | Error e => ret (Error e)
  | Ok ok =>
      oid <- lift (subscript ok ["data"; "mergeBranch"; "mergeCommit"; "oid"]) ;;
      ret (Ok oid)
  end.

Definition get_username (hostname : string) : M (Result json) :=
  let params := [("query", PStr (GRAPHQL_GET_LOGIN query))] in
  result <- await_make_request (mkRequest params hostname None) ;;
  match result with
  | Error e => ret (Error e)
  | Ok ok =>
      login <- lift (subscript ok ["data"; "viewer"; "login"]) ;;
      ret (Ok login)
  end.


(** The requests the other operations send. *)
Definition pull_request_details_request (pr : PullRequestId) : request :=
  mkRequest [("query", PStr (GRAPHQL_GET_PULL_REQUEST query));
             ("owner", PStr (pr_owner pr));
             ("name", PStr (pr_name pr));
             ("number", PInt (pr_number pr))] (get_hostname pr) None.

Definition placeholder_issue_request (hostname owner name : string) : request :=
  mkRequest [("title", PStr "placeholder for pull request")] hostname
            (Some ("repos/" ++ owner ++ "/" ++ name ++ "/issues")).

Definition create_pull_request_request
    (hostname owner name base head body : string) (issue : Z) (is_draft : bool) : request :=
  mkRequest [("base", PStr base); ("head", PStr head); ("body", PStr body);
             ("issue", PInt issue); ("draft", PBool is_draft)] hostname
            (Some ("repos/" ++ owner ++ "/" ++ name ++ "/pulls")).

Definition update_pull_request_request (hostname node_id title body : string) : request :=
  mkRequest [("query", PStr (GRAPHQL_UPDATE_PULL_REQUEST query));
             ("pullRequestId", PStr node_id);
             ("title", PStr title);
             ("body", PStr body)] hostname None.

Definition create_branch_request (hostname repo_id branch_name oid : string) : request :=
  mkRequest [("query", PStr (GRAPHQL_CREATE_BRANCH query));
             ("repositoryId", PStr repo_id);
             ("name", PStr ("refs/heads/" ++ branch_name));
             ("oid", PStr oid)] hostname None.

Definition merge_into_branch_request
    (hostname repo_id oid_to_merge branch_name : string) : request :=
  mkRequest [("query", PStr (GRAPHQL_MERGE_BRANCH query));
             ("repositoryId", PStr repo_id);
             ("base", PStr branch_name);
             ("head", PStr oid_to_merge)] hostname None.

Definition get_username_request (hostname : string) : request :=
  mkRequest [("query", PStr (GRAPHQL_GET_LOGIN query))] hostname None.

(** What the transport answers to [req] in session [s]. *)
Definition reply_to (s : session) (req : request) : Result json :=
  fst (make_request req (transport s)).

(** The session once [req] has been handed to the transport. *)
Definition after_request (s : session) (req : request) : session :=
  {| transport := snd (make_request req (transport s));
     issued := issued s ++ [req] |}.

(** ** Lemmas on the helpers *)

Lemma prefix_append (sub post : string) : String.prefix sub (sub ++ post) = true.
Proof.
  induction sub as [|c sub IH]; simpl.
  - destruct post; reflexivity.
  - destruct (Ascii.ascii_dec c c) as [_|ne]; [exact IH | contradiction].
Qed.

Lemma contains_prefix (sub s : string) :
  String.prefix sub s = true -> contains sub s = true.
Proof.
  intros H. destruct s; unfold contains; fold contains; rewrite H; reflexivity.
Qed.

Lemma contains_append (sub pre post : string) :
  contains sub (pre ++ sub ++ post) = true.
Proof.
  induction pre as [|c pre IH].
  - simpl append. apply contains_prefix, prefix_append.
  - simpl append. unfold contains; fold contains.
    destruct (String.prefix sub (String c (pre ++ sub ++ post))); [reflexivity | exact IH].
Qed.

Lemma percent_format_template (link : string) :
  percent_format NO_DEFAULT_BRANCH_TEMPLATE (Some link)
  = Return (no_default_branch_text link).
Proof. reflexivity. Qed.

Lemma contains_here (sub post : string) : contains sub (sub ++ post) = true.
Proof. apply (contains_append sub "" post). Qed.

Lemma contains_skip (sub pre s : string) :
  contains sub s = true -> contains sub (pre ++ s) = true.
Proof.
  intros H. induction pre as [|c pre IH]; [exact H|].
  simpl append. unfold contains; fold contains.
  destruct (String.prefix sub (String c (pre ++ s))); [reflexivity | exact IH].
Qed.

Lemma append_assoc (a b c : string) : (a ++ b) ++ c = a ++ b ++ c.
Proof. induction a as [|x a IH]; simpl; [reflexivity | now rewrite IH]. Qed.

(** The message names the host, the owner and the repository, and tells
    the user to initialize it. *)
Lemma text_mentions (h o n : string) :
  let text := no_default_branch_text (new_main_link h o n) in
  contains h text = true /\ contains o text = true /\ contains n text = true
  /\ contains "to initialize your" text = true.
Proof.
  unfold no_default_branch_text, new_main_link. cbv zeta.
  rewrite !append_assoc.
  repeat split.
  1-3: repeat first [apply contains_here | apply contains_skip].
  do 11 apply contains_skip.
  apply (contains_skip _ " ").
  exact (contains_here "to initialize your" (newline ++ "repository." ++ newline)).
Qed.

(** ** Lemmas on the operations *)

Lemma parse_conformant (j : json) (n : repo_node) (h : string) (up : option Repository) :
  view_repo j = Some n ->
  _parse_repository_from_dict j h up
  = match node_default_branch n with
    | None =>
        obind (percent_format (gettext NO_DEFAULT_BRANCH_TEMPLATE)
                 (Some (new_main_link h (node_login n) (node_name n))))
              (fun m => Return (Error m))
    | Some b => Return (Ok (repository_of n h b up))
    end.
Proof.
  unfold view_repo, _parse_repository_from_dict, as_str, as_bool, view_branch_ref.
  cbn [subscript].
  intros V.
  destruct (getitem j "owner") as [ow|]; cbn [obind] in *; [|discriminate].
  destruct (getitem ow "login") as [[]|]; cbn [obind] in *; try discriminate.
  destruct (getitem j "name") as [[]|]; cbn [obind] in *; try discriminate.
  destruct (getitem j "defaultBranchRef") as [br|]; cbn [obind] in *; [|discriminate].
  destruct (getitem j "id") as [[]|]; cbn [obind] in *;
    try (destruct br; try discriminate; destruct (getitem _ "name") as [[]|]; discriminate).
  destruct (getitem j "isFork") as [[]|]; cbn [obind] in *;
    try (destruct br; try discriminate; destruct (getitem _ "name") as [[]|]; discriminate).
  destruct br; cbn [is_None] in *; try discriminate.
  - injection V as <-. reflexivity.
  - destruct (getitem (JObj fields) "name") as [[]|]; cbn [obind] in *; try discriminate.
    injection V as <-. reflexivity.
Qed.

Lemma view_repo_truthy (j : json) (n : repo_node) :
  view_repo j = Some n -> truthy j = true.
Proof.
  unfold view_repo, as_str. intros V.
  destruct j as [| | | | |fields]; try discriminate V.
  destruct fields; [discriminate V | reflexivity].
Qed.

Lemma await_make_request_run (req : request) (s : session) (result : Result json) (w : world) :
  make_request req (transport s) = (result, w) ->
  await_make_request req s
  = (Return result, {| transport := w; issued := issued s ++ [req] |}).
Proof. intros H. unfold await_make_request. rewrite H. reflexivity. Qed.

Lemma get_repository_conformant (h o n : string) (s : session)
    (ok : json) (w : world) (target : repo_node) (parent : option repo_node) :
  make_request (repository_request h o n) (transport s) = (Ok ok, w) ->
  view_reply ok = Some (target, parent) ->
  gettext NO_DEFAULT_BRANCH_TEMPLATE = NO_DEFAULT_BRANCH_TEMPLATE ->
  get_repository h o n s
  = (Return (resolved h target parent),
     {| transport := w; issued := issued s ++ [repository_request h o n] |}).
Proof.
  intros Hreq V G.
  unfold get_repository, bind. cbv zeta.
  fold (repository_request h o n).
  rewrite (await_make_request_run _ _ _ _ Hreq).
  unfold view_reply in V. cbn [subscript obind] in V. unfold lift.
  destruct (getitem ok "data") as [data|]; cbn [obind] in V; [|discriminate].
  destruct (getitem data "repository") as [repo|]; cbn [obind] in V; [|discriminate].
  destruct (view_repo repo) as [t|] eqn:Vt; [|discriminate].
  destruct (getitem repo "parent") as [pj|]; [|discriminate].
  assert (Hnull : pj = JNull -> parent = None /\ t = target)
    by (intros ->; injection V as <- <-; auto).
  assert (Hobj : pj <> JNull ->
                 exists p, view_repo pj = Some p /\ parent = Some p /\ t = target).
  { intros Hne. destruct pj; try congruence;
      (cbv beta iota in V;
       match type of V with
       | context [view_repo ?x] => destruct (view_repo x) as [p|] eqn:Vp
       end; [|discriminate];
       injection V as <- <-; eauto). }
  clear V.
  destruct (truthy pj) eqn:T.
  - destruct Hobj as (p & Vp & -> & ->); [intros ->; discriminate T|].
    rewrite (parse_conformant _ _ _ _ Vp), G, percent_format_template.
    unfold resolved.
    destruct (node_default_branch p); cbn [obind]; [|reflexivity].
    rewrite (parse_conformant _ _ _ _ Vt), G, percent_format_template.
    destruct (node_default_branch target); reflexivity.
  - assert (pj = JNull) as ->.
    { destruct pj; try reflexivity;
        (destruct Hobj as (p & Vp & _); [discriminate|];
         apply view_repo_truthy in Vp; congruence). }
    destruct Hnull as [-> ->]; [reflexivity|].
    rewrite (parse_conformant _ _ _ _ Vt), G, percent_format_template.
    unfold resolved. destruct (node_default_branch target); reflexivity.
Qed.

Lemma parse_ok_inv (j : json) (h : string) (up : option Repository) (r : Repository) :
  _parse_repository_from_dict j h up = Return (Ok r) ->
  upstream r = up /\ hostname r = h
  /\ getitem j "isFork" = Return (is_fork r)
  /\ subscript j ["defaultBranchRef"; "name"] = Return (default_branch r)
  /\ subscript j ["owner"; "login"] = Return (owner r)
  /\ getitem j "name" = Return (name r).
Proof.
  unfold _parse_repository_from_dict. cbn [subscript]. intros P.
  destruct (getitem j "owner") as [ow|]; cbn [obind] in *; [|discriminate].
  destruct (getitem ow "login") as [lg|]; cbn [obind] in *; [|discriminate].
  destruct (getitem j "name") as [nm|]; cbn [obind] in *; [|discriminate].
  destruct (getitem j "defaultBranchRef") as [br|]; cbn [obind] in *; [|discriminate].
  destruct (is_None br).
  - destruct (percent_format _ _); discriminate.
  - destruct (getitem j "id") as [i|]; cbn [obind] in *; [|discriminate].
    destruct (getitem br "name") as [b|]; cbn [obind] in *; [|discriminate].
    destruct (getitem j "isFork") as [f|]; cbn [obind] in *; [|discriminate].
    injection P as <-. cbn. auto 7.
Qed.

Lemma get_repository_ok_inv (h o n : string) (s s' : session) (r : Repository) :
  get_repository h o n s = (Return (Ok r), s') ->
  exists ok w repo parent,
    make_request (repository_request h o n) (transport s) = (Ok ok, w)
    /\ subscript ok ["data"; "repository"] = Return repo
    /\ getitem repo "parent" = Return parent
    /\ ((truthy parent = false
         /\ _parse_repository_from_dict repo h None = Return (Ok r))
        \/ (truthy parent = true
            /\ exists u, _parse_repository_from_dict parent h None = Return (Ok u)
                      /\ _parse_repository_from_dict repo h (Some u) = Return (Ok r))).
Proof.
  unfold get_repository, bind, await_make_request, lift, ret. cbv zeta.
  fold (repository_request h o n). cbn [subscript].
  destruct (make_request _ _) as [[ok|e] w]; [|discriminate].
  intros G. exists ok, w.
  destruct (getitem ok "data") as [data|] eqn:Hdata; cbn [obind] in *; [|discriminate].
  destruct (getitem data "repository") as [repo|] eqn:Hrepo; cbn [obind] in *;
    [|discriminate].
  destruct (getitem repo "parent") as [parent|] eqn:Hparent; [|discriminate].
  exists repo, parent.
  split; [reflexivity|]. split; [reflexivity|]. split; [exact Hparent|].
  destruct (truthy parent).
  - right. split; [reflexivity|].
    destruct (_parse_repository_from_dict parent h None) as [[u|e]|]; try discriminate.
    exists u. split; [reflexivity|].
    destruct (_parse_repository_from_dict repo h (Some u)) as [res|]; [|discriminate].
    injection G as -> _. reflexivity.
  - left. split; [reflexivity|].
    destruct (_parse_repository_from_dict repo h None) as [res|]; [|discriminate].
    injection G as -> _. reflexivity.
Qed.

Lemma view_reply_inv (ok : json) (target : repo_node) (parent : option repo_node) :
  view_reply ok = Some (target, parent) ->
  exists repo pj,
    subscript ok ["data"; "repository"] = Return repo
    /\ getitem repo "parent" = Return pj
    /\ view_repo repo = Some target
    /\ match parent with
       | Some p => view_repo pj = Some p
       | None => pj = JNull
       end.
Proof.
  unfold view_reply. intros V.
  destruct (subscript ok ["data"; "repository"]) as [repo|]; [|discriminate].
  destruct (view_repo repo) as [t|] eqn:Vt; [|discriminate].
  destruct (getitem repo "parent") as [pj|] eqn:Hp; [|discriminate].
  exists repo, pj.
  destruct pj; cbv beta iota in V;
    try (match type of V with
         | context [view_repo ?x] => destruct (view_repo x) as [p|] eqn:Vp
         end; [|discriminate]);
    injection V as <- <-; repeat split; solve [reflexivity | assumption].
Qed.

Lemma get_repository_reply (h o n : string) (s : session)
    (ok : json) (w : world) (repo parent : json) :
  make_request (repository_request h o n) (transport s) = (Ok ok, w) ->
  subscript ok ["data"; "repository"] = Return repo ->
  getitem repo "parent" = Return parent ->
  get_repository h o n s
  = ((if truthy parent then
        match _parse_repository_from_dict parent h None with
        | Return (Ok u) => _parse_repository_from_dict repo h (Some u)
        | Return (Error e) => Return (Error e)
        | Raise e => Raise e
        end
      else _parse_repository_from_dict repo h None),
     {| transport := w; issued := issued s ++ [repository_request h o n] |}).
Proof.
  intros Hreq Hrepo Hparent.
  unfold get_repository, bind. cbv zeta.
  fold (repository_request h o n).
  rewrite (await_make_request_run _ _ _ _ Hreq).
  unfold lift, ret. cbn [subscript] in Hrepo.
  destruct (getitem ok "data") as [data|]; cbn [obind] in Hrepo; [|discriminate].
  destruct (getitem data "repository") as [repo'|]; cbn [obind] in Hrepo; [|discriminate].
  injection Hrepo as ->. rewrite Hparent.
  destruct (truthy parent); [|reflexivity].
  destruct (_parse_repository_from_dict parent h None) as [[u|e]|]; reflexivity.
Qed.

Lemma subscript_app (obj : json) (ks1 ks2 : list string) :
  subscript obj (ks1 ++ ks2) = obind (subscript obj ks1) (fun v => subscript v ks2).
Proof.
  revert obj. induction ks1 as [|k ks1 IH]; intros obj; [reflexivity|].
  cbn [subscript app]. destruct (getitem obj k); cbn [obind]; [apply IH | reflexivity].
Qed.

(** ** The claims *)

(** C1 (as amended).  On every successful [get_repository], [is_fork] is
    the reply's [isFork] value as it came, and [upstream] is absent exactly
    when the reply's [parent] is falsy ([null]).  So [is_fork = false]
    comes with an absent [upstream] for the replies in which a repository
    that is not a fork has a [null] parent, and not for the others. *)
Theorem C1_upstream_follows_parent (h o n : string) (s s' : session) (r : Repository) :
  get_repository h o n s = (Return (Ok r), s') ->
  exists ok w parent,
    make_request (repository_request h o n) (transport s) = (Ok ok, w)
    /\ subscript ok ["data"; "repository"; "isFork"] = Return (is_fork r)
    /\ subscript ok ["data"; "repository"; "parent"] = Return parent
    /\ (upstream r = None <-> truthy parent = false).
Proof.
  intros G.
  destruct (get_repository_ok_inv _ _ _ _ _ _ G)
    as (ok & w & repo & parent & Hreq & Hrepo & Hparent & Hcase).
  exists ok, w, parent.
  cbn [subscript] in *.
  destruct (getitem ok "data") as [data|]; cbn [obind] in *; [|discriminate].
  destruct (getitem data "repository") as [repo'|]; cbn [obind] in *; [|discriminate].
  injection Hrepo as ->.
  destruct Hcase as [[T P] | [T (u & _ & P)]];
    apply parse_ok_inv in P; destruct P as (Hup & _ & Hfork & _);
    rewrite Hfork, Hparent, Hup, T; repeat split; congruence.
Qed.

(** C2.  [get_base_branch] is the upstream's default branch when there is
    an upstream and the repository's own otherwise;
    [get_upstream_owner_and_name] likewise for (owner, name).  With an
    upstream present both values are read off the upstream alone: the
    repository's own fields do not enter. *)
Theorem C2_derived_values
    (i : json) (h : string) (o n b f : json) (up : option Repository) :
  let self := mkRepository i h o n b f up in
  get_base_branch self
  = match up with Some u => default_branch u | None => b end
  /\ get_upstream_owner_and_name self
     = match up with Some u => (owner u, name u) | None => (o, n) end.
Proof. split; reflexivity. Qed.

(** C5.  A successful [get_repository] follows one link of fork ancestry:
    whatever upstream it returns has no upstream of its own.  When the
    reply's parent is itself marked as a fork, the upstream is present,
    carries [is_fork = true], and still has no upstream. *)
Theorem C5_one_level_of_ancestry (h o n : string) (s s' : session) (r : Repository) :
  get_repository h o n s = (Return (Ok r), s') ->
  (forall u, upstream r = Some u -> upstream u = None)
  /\ (forall ok w,
        make_request (repository_request h o n) (transport s) = (Ok ok, w) ->
        subscript ok ["data"; "repository"; "parent"; "isFork"] = Return (JBool true) ->
        exists u, upstream r = Some u /\ is_fork u = JBool true /\ upstream u = None).
Proof.
  intros G.
  destruct (get_repository_ok_inv _ _ _ _ _ _ G)
    as (ok & w & repo & parent & Hreq & Hrepo & Hparent & Hcase).
  split.
  - intros u Hu.
    destruct Hcase as [[T P] | [T (u' & Pu & P)]];
      apply parse_ok_inv in P; destruct P as (Hup & _).
    + congruence.
    + apply parse_ok_inv in Pu. destruct Pu as (Hup' & _). congruence.
  - intros ok' w' Hreq' Hfork.
    rewrite Hreq in Hreq'. injection Hreq' as <- <-.
    cbn [subscript] in *.
    destruct (getitem ok "data") as [data|]; cbn [obind] in *; [|discriminate].
    destruct (getitem data "repository") as [repo'|]; cbn [obind] in *; [|discriminate].
    injection Hrepo as ->. rewrite Hparent in Hfork. cbn [obind] in Hfork.
    destruct Hcase as [[T P] | [T (u & Pu & P)]].
    + destruct parent as [| | | | |fields]; try discriminate Hfork.
      destruct fields; discriminate.
    + apply parse_ok_inv in P, Pu.
      destruct P as (Hup & _). destruct Pu as (Hup' & _ & Hf & _).
      rewrite Hf in Hfork. cbn [obind] in Hfork.
      exists u. repeat split; congruence.
Qed.

(** C3 (as amended).  On a conformant reply whose target has no default
    branch (message template untranslated), [get_repository] returns an
    error Result, never a Repository.  The message carries the hostname and
    the advice to initialize the repository, and names the owner and name
    of [reported_node]: the target, unless a parent is present that has no
    default branch either, in which case the parent's. *)
Theorem C3_missing_default_branch (h o n : string) (s : session)
    (ok : json) (w : world) (target : repo_node) (parent : option repo_node) :
  make_request (repository_request h o n) (transport s) = (Ok ok, w) ->
  view_reply ok = Some (target, parent) ->
  node_default_branch target = None ->
  gettext NO_DEFAULT_BRANCH_TEMPLATE = NO_DEFAULT_BRANCH_TEMPLATE ->
  let c := reported_node target parent in
  let message := no_default_branch_text (new_main_link h (node_login c) (node_name c)) in
  get_repository h o n s
  = (Return (Error message),
     {| transport := w; issued := issued s ++ [repository_request h o n] |})
  /\ contains h message = true
  /\ contains (node_login c) message = true
  /\ contains (node_name c) message = true
  /\ contains "to initialize your" message = true.
Proof.
  intros Hreq V D G c message.
  split; [|apply text_mentions].
  rewrite (get_repository_conformant _ _ _ _ _ _ _ _ Hreq V G).
  unfold resolved, message, c, reported_node.
  destruct parent as [p|]; [destruct (node_default_branch p)|]; rewrite ?D; reflexivity.
Qed.

(** C4.  On a conformant reply whose parent is present and has no default
    branch, [get_repository] ends exactly as parsing the parent ends: it
    hands on the parent's outcome, which is never a Repository, and which
    is the parent's error Result once the message template is
    untranslated. *)
Theorem C4_parent_error_returned (h o n : string) (s : session)
    (ok : json) (w : world) (target p : repo_node) (pj : json) :
  make_request (repository_request h o n) (transport s) = (Ok ok, w) ->
  view_reply ok = Some (target, Some p) ->
  node_default_branch p = None ->
  subscript ok ["data"; "repository"; "parent"] = Return pj ->
  fst (get_repository h o n s) = _parse_repository_from_dict pj h None
  /\ (forall r, fst (get_repository h o n s) <> Return (Ok r))
  /\ (gettext NO_DEFAULT_BRANCH_TEMPLATE = NO_DEFAULT_BRANCH_TEMPLATE ->
      fst (get_repository h o n s)
      = Return (Error (no_default_branch_text
                         (new_main_link h (node_login p) (node_name p))))).
Proof.
  intros Hreq V D Hpj.
  destruct (view_reply_inv _ _ _ V) as (repo & pj' & Hrepo & Hparent & Vt & Vp).
  change ["data"; "repository"; "parent"] with ((["data"; "repository"] ++ ["parent"])%list) in Hpj.
  rewrite subscript_app, Hrepo in Hpj. cbn [obind subscript] in Hpj.
  rewrite Hparent in Hpj. injection Hpj as ->.
  rewrite (get_repository_reply _ _ _ _ _ _ _ _ Hreq Hrepo Hparent).
  rewrite (view_repo_truthy _ _ Vp). cbn [fst].
  rewrite (parse_conformant _ _ h None Vp), D.
  destruct (percent_format (gettext NO_DEFAULT_BRANCH_TEMPLATE) _) as [m|e] eqn:F;
    cbn [obind]; (split; [reflexivity|]); (split; [discriminate|]);
    intros G; rewrite G, percent_format_template in F;
    [injection F as <-; reflexivity | discriminate F].
Qed.

(** C10.  The parent is parsed before the target: when neither has a
    default branch, the error returned is the one made for the parent, and
    its message names the parent's owner and name. *)
Theorem C10_parent_reported_first (h o n : string) (s : session)
    (ok : json) (w : world) (target p : repo_node) (pj : json) :
  make_request (repository_request h o n) (transport s) = (Ok ok, w) ->
  view_reply ok = Some (target, Some p) ->
  node_default_branch target = None ->
  node_default_branch p = None ->
  subscript ok ["data"; "repository"; "parent"] = Return pj ->
  gettext NO_DEFAULT_BRANCH_TEMPLATE = NO_DEFAULT_BRANCH_TEMPLATE ->
  let message := no_default_branch_text (new_main_link h (node_login p) (node_name p)) in
  _parse_repository_from_dict pj h None = Return (Error message)
  /\ get_repository h o n s
     = (Return (Error message),
        {| transport := w; issued := issued s ++ [repository_request h o n] |})
  /\ contains (node_login p) message = true
  /\ contains (node_name p) message = true.
Proof.
  intros Hreq V Dt Dp Hpj G message.
  destruct (view_reply_inv _ _ _ V) as (repo & pj' & Hrepo & Hparent & Vt & Vp).
  change ["data"; "repository"; "parent"] with ((["data"; "repository"] ++ ["parent"])%list) in Hpj.
  rewrite subscript_app, Hrepo in Hpj. cbn [obind subscript] in Hpj.
  rewrite Hparent in Hpj. injection Hpj as ->.
  split; [|split].
  - rewrite (parse_conformant _ _ h None Vp), Dp, G, percent_format_template. reflexivity.
  - rewrite (get_repository_conformant _ _ _ _ _ _ _ _ Hreq V G).
    unfold resolved. rewrite Dp. reflexivity.
  - destruct (text_mentions h (node_login p) (node_name p)) as (_ & Ho & Hn & _).
    split; [exact Ho | exact Hn].
Qed.

(** C6.  Every call of [create_pull_request] hands the transport one
    request for the endpoint repos/<owner>/<name>/pulls whose parameters
    hold [issue], set to the reserved number, and hold no [title]. *)
Theorem C6_issue_and_no_title
    (h o n base head body : string) (issue : Z) (is_draft : bool) (s : session) :
  exists req,
    issued (snd (create_pull_request h o n base head body issue is_draft s))
    = (issued s ++ [req])%list
    /\ endpoint req = Some ("repos/" ++ o ++ "/" ++ n ++ "/pulls")
    /\ params_get (params req) "issue" = Some (PInt issue)
    /\ params_get (params req) "title" = None.
Proof.
  unfold create_pull_request, await_make_request. cbv zeta.
  destruct (make_request _ _) as [result w].
  eexists. cbn [snd issued]. split; [reflexivity|].
  cbn. auto.
Qed.

(** C7.  [create_pull_request] issues exactly one request, whatever the
    transport answers, and returns the transport's Result as it is; after
    a failure nothing more is sent. *)
Theorem C7_single_request
    (h o n base head body : string) (issue : Z) (is_draft : bool) (s : session) :
  exists req,
    create_pull_request h o n base head body issue is_draft s
    = (Return (fst (make_request req (transport s))),
       {| transport := snd (make_request req (transport s));
          issued := (issued s ++ [req])%list |})
    /\ length (issued (snd (create_pull_request h o n base head body issue is_draft s)))
       = S (length (issued s)).
Proof.
  unfold create_pull_request, await_make_request. cbv zeta.
  exists (mkRequest [("base", PStr base); ("head", PStr head); ("body", PStr body);
                     ("issue", PInt issue); ("draft", PBool is_draft)]
                    h (Some ("repos/" ++ o ++ "/" ++ n ++ "/pulls"))).
  destruct (make_request _ _) as [result w]. cbn [fst snd issued].
  split; [reflexivity|].
  rewrite length_app. cbn [length]. lia.
Qed.

(** C8 (as amended).  A successful [update_pull_request] returns the id the
    service reports at data.updatePullRequest.pullRequest.id of its reply;
    [node_id] travels only in the request.  The payload therefore equals
    the [node_id] passed in exactly when the service echoes it. *)
Theorem C8_update_returns_reported_id
    (h node_id title body : string) (s s' : session) (v : json) :
  update_pull_request h node_id title body s = (Return (Ok v), s') ->
  exists req ok w,
    params_get (params req) "pullRequestId" = Some (PStr node_id)
    /\ make_request req (transport s) = (Ok ok, w)
    /\ subscript ok ["data"; "updatePullRequest"; "pullRequest"; "id"] = Return v
    /\ (v = JStr node_id <->
        subscript ok ["data"; "updatePullRequest"; "pullRequest"; "id"]
        = Return (JStr node_id)).
Proof.
  unfold update_pull_request, bind, await_make_request, lift, ret. cbv zeta.
  intros U.
  exists (mkRequest [("query", PStr (GRAPHQL_UPDATE_PULL_REQUEST query));
                     ("pullRequestId", PStr node_id);
                     ("title", PStr title);
                     ("body", PStr body)] h None).
  destruct (make_request _ _) as [[ok|e] w]; [|discriminate].
  exists ok, w.
  destruct (subscript ok _) as [v'|]; [|discriminate].
  injection U as -> _.
  repeat split; congruence.
Qed.

(** The outcome of each operation, from the transport's answer to the
    request the operation sends. *)

Ltac unfold_run :=
  unfold reply_to, bind, await_make_request, lift, ret; cbv zeta;
  destruct (make_request _ _) as [[ok | e] w]; cbn [fst]; try reflexivity.

Lemma get_repository_outcome (h o n : string) (s : session) :
  fst (get_repository h o n s)
  = match reply_to s (repository_request h o n) with
    | Error e => Return (Error e)
    | Ok ok =>
        repo <~ subscript ok ["data"; "repository"] ;;
        parent <~ getitem repo "parent" ;;
        if truthy parent then
          match _parse_repository_from_dict parent h None with
          | Return (Ok u) => _parse_repository_from_dict repo h (Some u)
          | Return (Error e) => Return (Error e)
          | Raise e => Raise e
          end
        else _parse_repository_from_dict repo h None
    end.
Proof.
  unfold get_repository, repository_request. unfold_run. cbn [subscript].
  destruct (getitem ok "data") as [data|]; cbn [obind fst]; [|reflexivity].
  destruct (getitem data "repository") as [repo|]; cbn [obind fst]; [|reflexivity].
  destruct (getitem repo "parent") as [parent|]; cbn [obind fst]; [|reflexivity].
  destruct (truthy parent); [|reflexivity].
  destruct (_parse_repository_from_dict parent h None) as [[u|e]|]; reflexivity.
Qed.

Lemma get_pull_request_details_outcome (pr : PullRequestId) (s : session) :
  fst (get_pull_request_details pr s)
  = match reply_to s (pull_request_details_request pr) with
    | Error e => Return (Error e)
    | Ok ok =>
        data <~ subscript ok ["data"; "repository"; "pullRequest"] ;;
        i <~ getitem data "id" ;;
        u <~ getitem data "url" ;;
        c <~ getitem data "headRefOid" ;;
        b <~ getitem data "headRefName" ;;
        Return (Ok (mkPullRequestDetails i (pr_number pr) u c b))
    end.
Proof.
  unfold get_pull_request_details, pull_request_details_request. unfold_run.
  destruct (subscript ok _) as [data|]; cbn [obind fst]; [|reflexivity].
  destruct (getitem data "id"); cbn [obind fst]; [|reflexivity].
  destruct (getitem data "url"); cbn [obind fst]; [|reflexivity].
  destruct (getitem data "headRefOid"); cbn [obind fst]; [|reflexivity].
  destruct (getitem data "headRefName"); reflexivity.
Qed.

Lemma placeholder_issue_outcome (h o n : string) (s : session) :
  fst (create_pull_request_placeholder_issue h o n s)
  = match reply_to s (placeholder_issue_request h o n) with
    | Error e => Return (Error e)
    | Ok ok => v <~ getitem ok "number" ;; Return (Ok v)
    end.
Proof.
  unfold create_pull_request_placeholder_issue, placeholder_issue_request. unfold_run.
  destruct (getitem ok "number"); reflexivity.
Qed.

Lemma create_pull_request_outcome
    (h o n base head body : string) (issue : Z) (is_draft : bool) (s : session) :
  fst (create_pull_request h o n base head body issue is_draft s)
  = Return (reply_to s (create_pull_request_request h o n base head body issue is_draft)).
Proof.
  unfold create_pull_request, create_pull_request_request, reply_to, await_make_request.
  cbv zeta. destruct (make_request _ _). reflexivity.
Qed.

Lemma update_pull_request_outcome (h i t b : string) (s : session) :
  fst (update_pull_request h i t b s)
  = match reply_to s (update_pull_request_request h i t b) with
    | Error e => Return (Error e)
    | Ok ok =>
        v <~ subscript ok ["data"; "updatePullRequest"; "pullRequest"; "id"] ;;
        Return (Ok v)
    end.
Proof.
  unfold update_pull_request, update_pull_request_request. unfold_run.
  destruct (subscript ok _); reflexivity.
Qed.

Lemma create_branch_outcome (h r b c : string) (s : session) :
  fst (create_branch h r b c s)
  = match reply_to s (create_branch_request h r b c) with
    | Error e => Return (Error e)
    | Ok ok => v <~ subscript ok ["data"; "createRef"; "ref"; "id"] ;; Return (Ok v)
    end.
Proof.
  unfold create_branch, create_branch_request. unfold_run.
  destruct (subscript ok _); reflexivity.
Qed.

Lemma merge_into_branch_outcome (h r c b : string) (s : session) :
  fst (merge_into_branch h r c b s)
  = match reply_to s (merge_into_branch_request h r c b) with
    | Error e => Return (Error e)
    | Ok ok =>
        v <~ subscript ok ["data"; "mergeBranch"; "mergeCommit"; "oid"] ;; Return (Ok v)
    end.
Proof.
  unfold merge_into_branch, merge_into_branch_request. unfold_run.
  destruct (subscript ok _); reflexivity.
Qed.

Lemma get_username_outcome (h : string) (s : session) :
  fst (get_username h s)
  = match reply_to s (get_username_request h) with
    | Error e => Return (Error e)
    | Ok ok => v <~ subscript ok ["data"; "viewer"; "login"] ;; Return (Ok v)
    end.
Proof.
  unfold get_username, get_username_request. unfold_run.
  destruct (subscript ok _); reflexivity.
Qed.

(** C9 (as amended).  Every operation is a total function of its
    arguments and the session, and what it does is decided by the
    transport's answer to the one request it sends.
    - [create_pull_request] returns that answer as it is.
    - On an error answer every other operation returns the same error.
    - On a success answer an operation returns a success Result when the
      subscripts it applies to the reply all succeed; [get_repository]
      returns a Result (a Repository or the no-default-branch error) on a
      conformant reply, the message template untranslated.
    - On a success answer in which one of those subscripts fails ([data],
      [repository], [parent], [pullRequest] or one of its four fields,
      [number], or a step of the path to the updated id, the new ref id, the
      merge commit oid or the viewer's login), the operation raises the
      exception of that subscript and returns no Result. *)
Theorem C9_results_without_raising (s : session) :
  (forall h o n base head body issue is_draft,
      fst (create_pull_request h o n base head body issue is_draft s)
      = Return (reply_to s (create_pull_request_request h o n base head body issue is_draft)))
  /\ (forall e,
        (forall h o n,
            reply_to s (repository_request h o n) = Error e ->
            fst (get_repository h o n s) = Return (Error e))
        /\ (forall pr,
              reply_to s (pull_request_details_request pr) = Error e ->
              fst (get_pull_request_details pr s) = Return (Error e))
        /\ (forall h o n,
              reply_to s (placeholder_issue_request h o n) = Error e ->
              fst (create_pull_request_placeholder_issue h o n s) = Return (Error e))
        /\ (forall h i t b,
              reply_to s (update_pull_request_request h i t b) = Error e ->
              fst (update_pull_request h i t b s) = Return (Error e))
        /\ (forall h r b c,
              reply_to s (create_branch_request h r b c) = Error e ->
              fst (create_branch h r b c s) = Return (Error e))
        /\ (forall h r c b,
              reply_to s (merge_into_branch_request h r c b) = Error e ->
              fst (merge_into_branch h r c b s) = Return (Error e))
        /\ (forall h,
              reply_to s (get_username_request h) = Error e ->
              fst (get_username h s) = Return (Error e)))
  /\ (forall ok,
        (forall h o n target parent,
            reply_to s (repository_request h o n) = Ok ok ->
            view_reply ok = Some (target, parent) ->
            gettext NO_DEFAULT_BRANCH_TEMPLATE = NO_DEFAULT_BRANCH_TEMPLATE ->
            fst (get_repository h o n s) = Return (resolved h target parent))
        /\ (forall pr data i u c b,
              reply_to s (pull_request_details_request pr) = Ok ok ->
              subscript ok ["data"; "repository"; "pullRequest"] = Return data ->
              getitem data "id" = Return i ->
              getitem data "url" = Return u ->
              getitem data "headRefOid" = Return c ->
              getitem data "headRefName" = Return b ->
              fst (get_pull_request_details pr s)
              = Return (Ok (mkPullRequestDetails i (pr_number pr) u c b)))
        /\ (forall h o n v,
              reply_to s (placeholder_issue_request h o n) = Ok ok ->
              getitem ok "number" = Return v ->
              fst (create_pull_request_placeholder_issue h o n s) = Return (Ok v))
        /\ (forall h i t b v,
              reply_to s (update_pull_request_request h i t b) = Ok ok ->
              subscript ok ["data"; "updatePullRequest"; "pullRequest"; "id"] = Return v ->
              fst (update_pull_request h i t b s) = Return (Ok v))
        /\ (forall h r b c v,
              reply_to s (create_branch_request h r b c) = Ok ok ->
              subscript ok ["data"; "createRef"; "ref"; "id"] = Return v ->
              fst (create_branch h r b c s) = Return (Ok v))
        /\ (forall h r c b v,
              reply_to s (merge_into_branch_request h r c b) = Ok ok ->
              subscript ok ["data"; "mergeBranch"; "mergeCommit"; "oid"] = Return v ->
              fst (merge_into_branch h r c b s) = Return (Ok v))
        /\ (forall h v,
              reply_to s (get_username_request h) = Ok ok ->
              subscript ok ["data"; "viewer"; "login"] = Return v ->
              fst (get_username h s) = Return (Ok v)))
  /\ (forall ok x,
        (forall h o n,
            reply_to s (repository_request h o n) = Ok ok ->
            subscript ok ["data"; "repository"; "parent"] = Raise x ->
            fst (get_repository h o n s) = Raise x)
        /\ (forall pr,
              reply_to s (pull_request_details_request pr) = Ok ok ->
              subscript ok ["data"; "repository"; "pullRequest"] = Raise x ->
              fst (get_pull_request_details pr s) = Raise x)
        /\ (forall pr data,
              reply_to s (pull_request_details_request pr) = Ok ok ->
              subscript ok ["data"; "repository"; "pullRequest"] = Return data ->
              (getitem data "id" = Raise x
               \/ (exists i, getitem data "id" = Return i
                             /\ (getitem data "url" = Raise x
                                 \/ (exists u, getitem data "url" = Return u
                                               /\ (getitem data "headRefOid" = Raise x
                                                   \/ (exists c,
                                                          getitem data "headRefOid" = Return c
                                                          /\ getitem data "headRefName"
                                                             = Raise x)))))) ->
              fst (get_pull_request_details pr s) = Raise x)
        /\ (forall h o n,
              reply_to s (placeholder_issue_request h o n) = Ok ok ->
              getitem ok "number" = Raise x ->
              fst (create_pull_request_placeholder_issue h o n s) = Raise x)
        /\ (forall h i t b,
              reply_to s (update_pull_request_request h i t b) = Ok ok ->
              subscript ok ["data"; "updatePullRequest"; "pullRequest"; "id"] = Raise x ->
              fst (update_pull_request h i t b s) = Raise x)
        /\ (forall h r b c,
              reply_to s (create_branch_request h r b c) = Ok ok ->
              subscript ok ["data"; "createRef"; "ref"; "id"] = Raise x ->
              fst (create_branch h r b c s) = Raise x)
        /\ (forall h r c b,
              reply_to s (merge_into_branch_request h r c b) = Ok ok ->
              subscript ok ["data"; "mergeBranch"; "mergeCommit"; "oid"] = Raise x ->
              fst (merge_into_branch h r c b s) = Raise x)
        /\ (forall h,
              reply_to s (get_username_request h) = Ok ok ->
              subscript ok ["data"; "viewer"; "login"] = Raise x ->
              fst (get_username h s) = Raise x)).
Proof.
  split; [exact (fun h o n base head body issue is_draft =>
                   create_pull_request_outcome h o n base head body issue is_draft s)|].
  split; [|split].
  - intros e. repeat split.
    + intros h o n A. now rewrite get_repository_outcome, A.
    + intros pr A. now rewrite get_pull_request_details_outcome, A.
    + intros h o n A. now rewrite placeholder_issue_outcome, A.
    + intros h i t b A. now rewrite update_pull_request_outcome, A.
    + intros h r b c A. now rewrite create_branch_outcome, A.
    + intros h r c b A. now rewrite merge_into_branch_outcome, A.
    + intros h A. now rewrite get_username_outcome, A.
  - intros ok. repeat split.
    + intros h o n target parent A V G.
      unfold reply_to in A.
      destruct (make_request (repository_request h o n) (transport s)) as [res w] eqn:Hreq.
      cbn [fst] in A. subst res.
      rewrite (get_repository_conformant _ _ _ _ _ _ _ _ Hreq V G). reflexivity.
    + intros pr data i u c b A Hdata Hi Hu Hc Hb.
      rewrite get_pull_request_details_outcome, A, Hdata. cbn [obind].
      rewrite Hi, Hu, Hc, Hb. reflexivity.
    + intros h o n v A Hv. now rewrite placeholder_issue_outcome, A, Hv.
    + intros h i t b v A Hv. now rewrite update_pull_request_outcome, A, Hv.
    + intros h r b c v A Hv. now rewrite create_branch_outcome, A, Hv.
    + intros h r c b v A Hv. now rewrite merge_into_branch_outcome, A, Hv.
    + intros h v A Hv. now rewrite get_username_outcome, A, Hv.
  - intros ok x. repeat split.
    + intros h o n A Hsub. rewrite get_repository_outcome, A.
      change ["data"; "repository"; "parent"]
        with ((["data"; "repository"] ++ ["parent"])%list) in Hsub.
      rewrite subscript_app in Hsub.
      destruct (subscript ok ["data"; "repository"]) as [repo|]; cbn [obind subscript] in *;
        [|injection Hsub as ->; reflexivity].
      destruct (getitem repo "parent") as [parent|]; cbn [obind] in *;
        [discriminate Hsub | injection Hsub as ->; reflexivity].
    + intros pr A Hsub. now rewrite get_pull_request_details_outcome, A, Hsub.
    + intros pr data A Hdata Hfield.
      rewrite get_pull_request_details_outcome, A, Hdata. cbn [obind].
      destruct Hfield as [-> | (i & -> & [-> | (u & -> & [-> | (c & -> & ->)])])];
        reflexivity.
    + intros h o n A Hsub. now rewrite placeholder_issue_outcome, A, Hsub.
    + intros h i t b A Hsub. now rewrite update_pull_request_outcome, A, Hsub.
    + intros h r b c A Hsub. now rewrite create_branch_outcome, A, Hsub.
    + intros h r c b A Hsub. now rewrite merge_into_branch_outcome, A, Hsub.
    + intros h A Hsub. now rewrite get_username_outcome, A, Hsub.
Qed.

(** ** Further properties of the operations *)

Ltac run_to_end :=
  unfold bind, await_make_request, lift, ret, after_request; cbv zeta;
  destruct (make_request _ _) as [[? | ?] ?]; cbn [fst snd];
  repeat match goal with
         | |- context [match ?x with _ => _ end] => destruct x
         end;
  reflexivity.

Lemma session_after_get_repository (h o n : string) (s : session) :
  snd (get_repository h o n s) = after_request s (repository_request h o n).
Proof. unfold get_repository, repository_request. run_to_end. Qed.

Lemma session_after_get_pull_request_details (pr : PullRequestId) (s : session) :
  snd (get_pull_request_details pr s)
  = after_request s
      (mkRequest [("query", PStr (GRAPHQL_GET_PULL_REQUEST query));
                  ("owner", PStr (pr_owner pr));
                  ("name", PStr (pr_name pr));
                  ("number", PInt (pr_number pr))] (get_hostname pr) None).
Proof. unfold get_pull_request_details. run_to_end. Qed.

Lemma session_after_placeholder_issue (h o n : string) (s : session) :
  snd (create_pull_request_placeholder_issue h o n s)
  = after_request s
      (mkRequest [("title", PStr "placeholder for pull request")] h
                 (Some ("repos/" ++ o ++ "/" ++ n ++ "/issues"))).
Proof. unfold create_pull_request_placeholder_issue. run_to_end. Qed.

Lemma session_after_create_pull_request
    (h o n base head body : string) (issue : Z) (is_draft : bool) (s : session) :
  snd (create_pull_request h o n base head body issue is_draft s)
  = after_request s
      (mkRequest [("base", PStr base); ("head", PStr head); ("body", PStr body);
                  ("issue", PInt issue); ("draft", PBool is_draft)] h
                 (Some ("repos/" ++ o ++ "/" ++ n ++ "/pulls"))).
Proof.
  unfold create_pull_request, await_make_request, after_request. cbv zeta.
  destruct (make_request _ _). reflexivity.
Qed.

Lemma session_after_update_pull_request (h i t b : string) (s : session) :
  snd (update_pull_request h i t b s)
  = after_request s
      (mkRequest [("query", PStr (GRAPHQL_UPDATE_PULL_REQUEST query));
                  ("pullRequestId", PStr i);
                  ("title", PStr t);
                  ("body", PStr b)] h None).
Proof. unfold update_pull_request. run_to_end. Qed.

Lemma session_after_create_branch (h r b c : string) (s : session) :
  snd (create_branch h r b c s)
  = after_request s
      (mkRequest [("query", PStr (GRAPHQL_CREATE_BRANCH query));
                  ("repositoryId", PStr r);
                  ("name", PStr ("refs/heads/" ++ b));
                  ("oid", PStr c)] h None).
Proof. unfold create_branch. run_to_end. Qed.

Lemma session_after_merge_into_branch (h r c b : string) (s : session) :
  snd (merge_into_branch h r c b s)
  = after_request s
      (mkRequest [("query", PStr (GRAPHQL_MERGE_BRANCH query));
                  ("repositoryId", PStr r);
                  ("base", PStr b);
                  ("head", PStr c)] h None).
Proof. unfold merge_into_branch. run_to_end. Qed.

Lemma session_after_get_username (h : string) (s : session) :
  snd (get_username h s)
  = after_request s (mkRequest [("query", PStr (GRAPHQL_GET_LOGIN query))] h None).
Proof. unfold get_username. run_to_end. Qed.

(** X1.  Each operation that reads the reply makes exactly one round trip:
    whether it returns a Result or raises, the session it leaves behind is
    the one it started from with a single request handed to the transport. *)
Theorem X1_one_round_trip (s : session) :
  (forall h o n, exists req, snd (get_repository h o n s) = after_request s req)
  /\ (forall pr, exists req, snd (get_pull_request_details pr s) = after_request s req)
  /\ (forall h o n,
        exists req, snd (create_pull_request_placeholder_issue h o n s) = after_request s req)
  /\ (forall h i t b, exists req, snd (update_pull_request h i t b s) = after_request s req)
  /\ (forall h r b c, exists req, snd (create_branch h r b c s) = after_request s req)
  /\ (forall h r c b, exists req, snd (merge_into_branch h r c b s) = after_request s req)
  /\ (forall h, exists req, snd (get_username h s) = after_request s req).
Proof.
  repeat split; intros; eexists.
  - apply session_after_get_repository.
  - apply session_after_get_pull_request_details.
  - apply session_after_placeholder_issue.
  - apply session_after_update_pull_request.
  - apply session_after_create_branch.
  - apply session_after_merge_into_branch.
  - apply session_after_get_username.
Qed.

Lemma well_addressed_after (s : session) (req : request) :
  Forall (fun r => well_addressed r = true) (issued s) ->
  well_addressed req = true ->
  Forall (fun r => well_addressed r = true) (issued (after_request s req)).
Proof.
  intros Hs Hreq. unfold after_request. cbn [issued].
  apply Forall_app. split; [exact Hs | constructor; [exact Hreq | constructor]].
Qed.

(** X2.  The operations keep to the transport's calling convention: if every
    request issued so far is well addressed (no endpoint and a [query]
    document, or an endpoint and no [query]), so is every request issued
    once any of the eight operations has run. *)
Theorem X2_requests_well_addressed (s : session) :
  Forall (fun r => well_addressed r = true) (issued s) ->
  (forall h o n,
      Forall (fun r => well_addressed r = true) (issued (snd (get_repository h o n s))))
  /\ (forall pr,
        Forall (fun r => well_addressed r = true)
          (issued (snd (get_pull_request_details pr s))))
  /\ (forall h o n,
        Forall (fun r => well_addressed r = true)
          (issued (snd (create_pull_request_placeholder_issue h o n s))))
  /\ (forall h o n base head body issue is_draft,
        Forall (fun r => well_addressed r = true)
          (issued (snd (create_pull_request h o n base head body issue is_draft s))))
  /\ (forall h i t b,
        Forall (fun r => well_addressed r = true)
          (issued (snd (update_pull_request h i t b s))))
  /\ (forall h r b c,
        Forall (fun r => well_addressed r = true) (issued (snd (create_branch h r b c s))))
  /\ (forall h r c b,
        Forall (fun r => well_addressed r = true)
          (issued (snd (merge_into_branch h r c b s))))
  /\ (forall h,
        Forall (fun r => well_addressed r = true) (issued (snd (get_username h s)))).
Proof.
  intros Hs. repeat split; intros.
  - rewrite session_after_get_repository. now apply well_addressed_after.
  - rewrite session_after_get_pull_request_details. now apply well_addressed_after.
  - rewrite session_after_placeholder_issue. now apply well_addressed_after.
  - rewrite session_after_create_pull_request. now apply well_addressed_after.
  - rewrite session_after_update_pull_request. now apply well_addressed_after.
  - rewrite session_after_create_branch. now apply well_addressed_after.
  - rewrite session_after_merge_into_branch. now apply well_addressed_after.
  - rewrite session_after_get_username. now apply well_addressed_after.
Qed.

Lemma parse_ok_id (j : json) (h : string) (up : option Repository) (r : Repository) :
  _parse_repository_from_dict j h up = Return (Ok r) ->
  getitem j "id" = Return (id r).
Proof.
  unfold _parse_repository_from_dict. intros P.
  destruct (getitem j "owner") as [ow|]; cbn [obind] in *; [|discriminate].
  destruct (getitem ow "login") as [lg|]; cbn [obind] in *; [|discriminate].
  destruct (getitem j "name") as [nm|]; cbn [obind] in *; [|discriminate].
  destruct (getitem j "defaultBranchRef") as [br|]; cbn [obind] in *; [|discriminate].
  destruct (is_None br).
  - destruct (percent_format _ _); discriminate.
  - destruct (getitem j "id") as [i|]; cbn [obind] in *; [|discriminate].
    destruct (getitem br "name") as [b|]; cbn [obind] in *; [|discriminate].
    destruct (getitem j "isFork") as [f|]; cbn [obind] in *; [|discriminate].
    injection P as <-. reflexivity.
Qed.

Lemma subscript_under (obj v : json) (ks1 ks2 : list string) (o : outcome json) :
  subscript obj ks1 = Return v ->
  subscript v ks2 = o ->
  subscript obj (ks1 ++ ks2) = o.
Proof. intros H1 H2. rewrite subscript_app, H1. exact H2. Qed.

Lemma parse_ok_read_from (j : json) (h : string) (up : option Repository) (r : Repository) :
  _parse_repository_from_dict j h up = Return (Ok r) -> read_from j r.
Proof.
  intros P. pose proof (parse_ok_id _ _ _ _ P) as Hid.
  apply parse_ok_inv in P. destruct P as (_ & _ & Hf & Hb & Ho & Hn).
  unfold read_from. auto.
Qed.

(** X3.  A Repository returned by [get_repository] takes its hostname from
    the argument and every other field from the reply: [id], [owner],
    [name], [default_branch] and [is_fork] are the values found in the
    target node, whatever [owner] and [name] were asked for; an upstream,
    when there is one, is read the same way from the parent node and has
    the same hostname. *)
Theorem X3_repository_read_from_reply (h o n : string) (s s' : session) (r : Repository) :
  get_repository h o n s = (Return (Ok r), s') ->
  hostname r = h
  /\ (forall u, upstream r = Some u -> hostname u = h)
  /\ exists ok w repo parent,
      make_request (repository_request h o n) (transport s) = (Ok ok, w)
      /\ subscript ok ["data"; "repository"] = Return repo
      /\ getitem repo "parent" = Return parent
      /\ read_from repo r
      /\ (forall u, upstream r = Some u -> read_from parent u).
Proof.
  intros G.
  destruct (get_repository_ok_inv _ _ _ _ _ _ G)
    as (ok & w & repo & parent & Hreq & Hrepo & Hparent & Hcase).
  destruct Hcase as [[T P] | [T (u & Pu & P)]].
  - pose proof (parse_ok_read_from _ _ _ _ P) as R.
    apply parse_ok_inv in P. destruct P as (Hup & Hh & _).
    split; [exact Hh|]. split; [intros u' Hu; congruence|].
    exists ok, w, repo, parent.
    split; [exact Hreq|]. split; [exact Hrepo|]. split; [exact Hparent|].
    split; [exact R|]. intros u' Hu. congruence.
  - pose proof (parse_ok_read_from _ _ _ _ P) as R.
    pose proof (parse_ok_read_from _ _ _ _ Pu) as Ru.
    apply parse_ok_inv in P. destruct P as (Hup & Hh & _).
    apply parse_ok_inv in Pu. destruct Pu as (_ & Hhu & _).
    split; [exact Hh|].
    split; [intros u' Hu; rewrite Hup in Hu; injection Hu as <-; exact Hhu|].
    exists ok, w, repo, parent.
    split; [exact Hreq|]. split; [exact Hrepo|]. split; [exact Hparent|].
    split; [exact R|]. intros u' Hu. rewrite Hup in Hu. injection Hu as <-. exact Ru.
Qed.

(** X4.  On a conformant reply (message template untranslated) resolution
    fails exactly when a default branch is missing: [get_repository] returns
    a Result, and that Result is an error if and only if the target has no
    default branch or a parent is present that has none. *)
Theorem X4_fails_iff_branch_missing (h o n : string) (s : session)
    (ok : json) (w : world) (target : repo_node) (parent : option repo_node) :
  make_request (repository_request h o n) (transport s) = (Ok ok, w) ->
  view_reply ok = Some (target, parent) ->
  gettext NO_DEFAULT_BRANCH_TEMPLATE = NO_DEFAULT_BRANCH_TEMPLATE ->
  exists result,
    fst (get_repository h o n s) = Return result
    /\ (is_error result = true <->
        node_default_branch target = None
        \/ exists p, parent = Some p /\ node_default_branch p = None).
Proof.
  intros Hreq V G.
  rewrite (get_repository_conformant _ _ _ _ _ _ _ _ Hreq V G). cbn [fst].
  eexists. split; [reflexivity|].
  unfold resolved.
  destruct parent as [p|].
  - destruct (node_default_branch p) as [pb|] eqn:Dp.
    + destruct (node_default_branch target) as [tb|]; cbn [is_error]; split.
      * discriminate.
      * intros [D | (p' & E & D)]; [discriminate|]. injection E as <-. congruence.
      * auto.
      * reflexivity.
    + cbn [is_error]. split; [|reflexivity].
      intros _. right. exists p. auto.
  - destruct (node_default_branch target) as [tb|]; cbn [is_error]; split.
    + discriminate.
    + intros [D | (p' & E & _)]; discriminate.
    + auto.
    + reflexivity.
Qed.

(** X5.  Resolution composed with the derived values: on a conformant reply
    in which the target and, when present, the parent have a default branch,
    [get_repository] succeeds, and on its Repository [get_base_branch] is the
    parent's default branch and [get_upstream_owner_and_name] the parent's
    login and name when the reply has a parent, the target's own when it has
    none. *)
Theorem X5_base_of_resolved_repository (h o n : string) (s : session)
    (ok : json) (w : world) (target : repo_node) (parent : option repo_node)
    (tb : string) :
  make_request (repository_request h o n) (transport s) = (Ok ok, w) ->
  view_reply ok = Some (target, parent) ->
  gettext NO_DEFAULT_BRANCH_TEMPLATE = NO_DEFAULT_BRANCH_TEMPLATE ->
  node_default_branch target = Some tb ->
  (forall p, parent = Some p -> node_default_branch p <> None) ->
  exists r,
    fst (get_repository h o n s) = Return (Ok r)
    /\ match parent with
       | Some p =>
           Some (get_base_branch r) = option_map JStr (node_default_branch p)
           /\ get_upstream_owner_and_name r = (JStr (node_login p), JStr (node_name p))
       | None =>
           get_base_branch r = JStr tb
           /\ get_upstream_owner_and_name r
              = (JStr (node_login target), JStr (node_name target))
       end.
Proof.
  intros Hreq V G Dt Dp.
  rewrite (get_repository_conformant _ _ _ _ _ _ _ _ Hreq V G). cbn [fst].
  unfold resolved. rewrite Dt.
  destruct parent as [p|].
  - destruct (node_default_branch p) as [pb|] eqn:E.
    + eexists. split; [reflexivity|]. split; reflexivity.
    + exfalso. exact (Dp p eq_refl E).
  - eexists. split; [reflexivity|]. split; reflexivity.
Qed.

(** X6.  A [parent] that is not an object.  [if parent:] goes by
    truthiness, so a falsy value other than [null] (false, 0, the empty
    string, list or dict) is taken as "no parent": the target is parsed
    with no upstream.  A truthy value that is not an object (true, a number,
    a non-empty string or list) is parsed as a repository and the subscript
    on it raises [TypeError]. *)
Theorem X6_parent_not_an_object (h o n : string) (s : session)
    (ok : json) (w : world) (repo parent : json) :
  make_request (repository_request h o n) (transport s) = (Ok ok, w) ->
  subscript ok ["data"; "repository"] = Return repo ->
  getitem repo "parent" = Return parent ->
  (truthy parent = false ->
   fst (get_repository h o n s) = _parse_repository_from_dict repo h None)
  /\ (truthy parent = true -> (forall fields, parent <> JObj fields) ->
      fst (get_repository h o n s) = Raise TypeError).
Proof.
  intros Hreq Hrepo Hparent.
  rewrite (get_repository_reply _ _ _ _ _ _ _ _ Hreq Hrepo Hparent). cbn [fst].
  split.
  - intros ->. reflexivity.
  - intros -> Hobj.
    destruct parent as [| | | | |fields]; try reflexivity.
    exfalso. exact (Hobj fields eq_refl).
Qed.

(** X7.  [get_pull_request_details] trusts its argument for the number: on
    success [number] is [pr.number], never a value from the reply, while
    [node_id], [url], [head_oid] and [head_branch_name] are the reply's
    [id], [url], [headRefOid] and [headRefName] under
    data.repository.pullRequest. *)
Theorem X7_details_read_from_reply (pr : PullRequestId) (s s' : session)
    (d : PullRequestDetails) :
  get_pull_request_details pr s = (Return (Ok d), s') ->
  number d = pr_number pr
  /\ exists req ok w data,
      request_hostname req = get_hostname pr
      /\ make_request req (transport s) = (Ok ok, w)
      /\ subscript ok ["data"; "repository"; "pullRequest"] = Return data
      /\ getitem data "id" = Return (node_id d)
      /\ getitem data "url" = Return (url d)
      /\ getitem data "headRefOid" = Return (head_oid d)
      /\ getitem data "headRefName" = Return (head_branch_name d).
Proof.
  unfold get_pull_request_details, bind, await_make_request, lift, ret. cbv zeta.
  intros G.
  match type of G with
  | context [make_request ?r _] => set (req := r) in *
  end.
  destruct (make_request req (transport s)) as [[ok|e] w] eqn:Hreq; [|discriminate].
  destruct (subscript ok _) as [data|] eqn:Hdata; [|discriminate].
  destruct (getitem data "id") as [i|] eqn:Hi; [|discriminate].
  destruct (getitem data "url") as [u|] eqn:Hu; [|discriminate].
  destruct (getitem data "headRefOid") as [c|] eqn:Hc; [|discriminate].
  destruct (getitem data "headRefName") as [b|] eqn:Hb; [|discriminate].
  injection G as <- _. cbn.
  split; [reflexivity|].
  exists req, ok, w, data. repeat split; assumption || reflexivity.
Qed.

Ltac own_error G :=
  unfold bind, await_make_request, lift, ret in G; cbv zeta in G;
  match type of G with
  | context [make_request ?r _] =>
      exists r; destruct (make_request r _) as [[? | ?] ?]; cbn [fst]
  end;
  repeat match type of G with
         | context [match ?x with _ => _ end] => destruct x; try discriminate G
         end;
  try discriminate G; injection G as <- _; reflexivity.

(** X8.  Apart from [get_repository], no operation makes up an error: every
    error Result it returns is the one the transport gave for its
    request. *)
Theorem X8_errors_come_from_transport (s s' : session) (e : string) :
  (forall pr, get_pull_request_details pr s = (Return (Error e), s') ->
              exists req, fst (make_request req (transport s)) = Error e)
  /\ (forall h o n,
        create_pull_request_placeholder_issue h o n s = (Return (Error e), s') ->
        exists req, fst (make_request req (transport s)) = Error e)
  /\ (forall h o n base head body issue is_draft,
        create_pull_request h o n base head body issue is_draft s = (Return (Error e), s') ->
        exists req, fst (make_request req (transport s)) = Error e)
  /\ (forall h i t b, update_pull_request h i t b s = (Return (Error e), s') ->
                      exists req, fst (make_request req (transport s)) = Error e)
  /\ (forall h r b c, create_branch h r b c s = (Return (Error e), s') ->
                      exists req, fst (make_request req (transport s)) = Error e)
  /\ (forall h r c b, merge_into_branch h r c b s = (Return (Error e), s') ->
                      exists req, fst (make_request req (transport s)) = Error e)
  /\ (forall h, get_username h s = (Return (Error e), s') ->
                exists req, fst (make_request req (transport s)) = Error e).
Proof.
  repeat split.
  - intros pr G. unfold get_pull_request_details in G. own_error G.
  - intros h o n G. unfold create_pull_request_placeholder_issue in G. own_error G.
  - intros h o n base head body issue is_draft G. unfold create_pull_request in G.
    unfold await_make_request in G. cbv zeta in G.
    match type of G with
    | context [make_request ?r _] => exists r; destruct (make_request r _) as [res w]
    end.
    injection G as -> _. reflexivity.
  - intros h i t b G. unfold update_pull_request in G. own_error G.
  - intros h r b c G. unfold create_branch in G. own_error G.
  - intros h r c b G. unfold merge_into_branch in G. own_error G.
  - intros h G. unfold get_username in G. own_error G.
Qed.

Lemma parse_first_failure (j : json) (h : string) (up : option Repository) (x : exn) :
  (subscript j ["owner"; "login"] = Raise x
   \/ (exists o,
         subscript j ["owner"; "login"] = Return o
         /\ (getitem j "name" = Raise x
             \/ (exists n,
                   getitem j "name" = Return n
                   /\ (getitem j "defaultBranchRef" = Raise x
                       \/ (exists br,
                             getitem j "defaultBranchRef" = Return br
                             /\ is_None br = false
                             /\ (getitem j "id" = Raise x
                                 \/ (exists i,
                                       getitem j "id" = Return i
                                       /\ (getitem br "name" = Raise x
                                           \/ (exists b,
                                                 getitem br "name" = Return b
                                                 /\ getitem j "isFork" = Raise x)))))))))) ->
  _parse_repository_from_dict j h up = Raise x.
Proof.
  unfold _parse_repository_from_dict. cbn [subscript]. intros F.
  destruct (getitem j "owner") as [ow|]; cbn [obind] in *.
  - destruct (getitem ow "login") as [lg|]; cbn [obind] in *.
    + destruct F as [F | (o & _ & F)]; [discriminate|].
      destruct F as [-> | (n & -> & F)]; [reflexivity|]. cbn [obind].
      destruct F as [-> | (br & -> & Hbr & F)]; [reflexivity|]. cbn [obind].
      rewrite Hbr.
      destruct F as [-> | (i & -> & F)]; [reflexivity|]. cbn [obind].
      destruct F as [-> | (b & -> & ->)]; reflexivity.
    + destruct F as [F | (o & F & _)]; [injection F as ->; reflexivity | discriminate].
  - destruct F as [F | (o & F & _)]; [injection F as ->; reflexivity | discriminate].
Qed.

(** X9.  A success answer on which a subscript the operation applies fails
    makes the operation raise, with the very exception of that subscript
    ([KeyError] with the missing key, or [TypeError] on a non-object), and
    no Result comes back.  For [get_repository] the subscripts are those on
    the way to [parent] and those [_parse_repository_from_dict] applies to
    the parent, when truthy, and then to the target: owner.login, name,
    defaultBranchRef and, the branch not being [null], id, the branch's
    name and isFork, in this order.  For [get_pull_request_details] they
    are the way to [pullRequest] and then id, url, headRefOid and
    headRefName. *)
Theorem X9_missing_field_raises (s : session) (ok : json) (x : exn) :
  (forall h o n,
      reply_to s (repository_request h o n) = Ok ok ->
      (subscript ok ["data"; "repository"; "parent"] = Raise x ->
       fst (get_repository h o n s) = Raise x)
      /\ (forall repo parent,
            subscript ok ["data"; "repository"] = Return repo ->
            getitem repo "parent" = Return parent ->
            (truthy parent = true ->
             _parse_repository_from_dict parent h None = Raise x ->
             fst (get_repository h o n s) = Raise x)
            /\ (truthy parent = true ->
                forall u,
                  _parse_repository_from_dict parent h None = Return (Ok u) ->
                  _parse_repository_from_dict repo h (Some u) = Raise x ->
                  fst (get_repository h o n s) = Raise x)
            /\ (truthy parent = false ->
                _parse_repository_from_dict repo h None = Raise x ->
                fst (get_repository h o n s) = Raise x)))
  /\ (forall j h up,
        (subscript j ["owner"; "login"] = Raise x ->
         _parse_repository_from_dict j h up = Raise x)
        /\ (forall o,
              subscript j ["owner"; "login"] = Return o ->
              (getitem j "name" = Raise x ->
               _parse_repository_from_dict j h up = Raise x)
              /\ (forall n,
                    getitem j "name" = Return n ->
                    (getitem j "defaultBranchRef" = Raise x ->
                     _parse_repository_from_dict j h up = Raise x)
                    /\ (forall br,
                          getitem j "defaultBranchRef" = Return br ->
                          is_None br = false ->
                          (getitem j "id" = Raise x ->
                           _parse_repository_from_dict j h up = Raise x)
                          /\ (forall i,
                                getitem j "id" = Return i ->
                                (getitem br "name" = Raise x ->
                                 _parse_repository_from_dict j h up = Raise x)
                                /\ (forall b,
                                      getitem br "name" = Return b ->
                                      getitem j "isFork" = Raise x ->
                                      _parse_repository_from_dict j h up = Raise x))))))
  /\ (forall pr,
        reply_to s (pull_request_details_request pr) = Ok ok ->
        (subscript ok ["data"; "repository"; "pullRequest"] = Raise x ->
         fst (get_pull_request_details pr s) = Raise x)
        /\ (forall data,
              subscript ok ["data"; "repository"; "pullRequest"] = Return data ->
              (getitem data "id" = Raise x ->
               fst (get_pull_request_details pr s) = Raise x)
              /\ (forall i,
                    getitem data "id" = Return i ->
                    (getitem data "url" = Raise x ->
                     fst (get_pull_request_details pr s) = Raise x)
                    /\ (forall u,
                          getitem data "url" = Return u ->
                          (getitem data "headRefOid" = Raise x ->
                           fst (get_pull_request_details pr s) = Raise x)
                          /\ (forall c,
                                getitem data "headRefOid" = Return c ->
                                getitem data "headRefName" = Raise x ->
                                fst (get_pull_request_details pr s) = Raise x)))))
  /\ (forall h o n,
        reply_to s (placeholder_issue_request h o n) = Ok ok ->
        getitem ok "number" = Raise x ->
        fst (create_pull_request_placeholder_issue h o n s) = Raise x)
  /\ (forall h i t b,
        reply_to s (update_pull_request_request h i t b) = Ok ok ->
        subscript ok ["data"; "updatePullRequest"; "pullRequest"; "id"] = Raise x ->
        fst (update_pull_request h i t b s) = Raise x)
  /\ (forall h r b c,
        reply_to s (create_branch_request h r b c) = Ok ok ->
        subscript ok ["data"; "createRef"; "ref"; "id"] = Raise x ->
        fst (create_branch h r b c s) = Raise x)
  /\ (forall h r c b,
        reply_to s (merge_into_branch_request h r c b) = Ok ok ->
        subscript ok ["data"; "mergeBranch"; "mergeCommit"; "oid"] = Raise x ->
        fst (merge_into_branch h r c b s) = Raise x)
  /\ (forall h,
        reply_to s (get_username_request h) = Ok ok ->
        subscript ok ["data"; "viewer"; "login"] = Raise x ->
        fst (get_username h s) = Raise x).
Proof.
  split; [|split; [|split; [|repeat split]]].
  - intros h o n A. rewrite get_repository_outcome, A. split.
    + intros Hsub.
      change ["data"; "repository"; "parent"]
        with ((["data"; "repository"] ++ ["parent"])%list) in Hsub.
      rewrite subscript_app in Hsub.
      destruct (subscript ok ["data"; "repository"]) as [repo|]; cbn [obind subscript] in *;
        [|injection Hsub as ->; reflexivity].
      destruct (getitem repo "parent") as [parent|]; cbn [obind] in *;
        [discriminate Hsub | injection Hsub as ->; reflexivity].
    + intros repo parent Hrepo Hparent.
      rewrite Hrepo. cbn [obind]. rewrite Hparent. cbn [obind]. split; [|split].
      * intros -> ->. reflexivity.
      * intros -> u -> ->. reflexivity.
      * intros -> ->. reflexivity.
  - intros j h up. split.
    + intros F. apply parse_first_failure. auto.
    + intros o Ho. split.
      * intros F. apply parse_first_failure. right. exists o. auto.
      * intros n Hn. split.
        -- intros F. apply parse_first_failure. right. exists o. split; [exact Ho|].
           right. exists n. auto.
        -- intros br Hbr Hnn. split.
           ++ intros F. apply parse_first_failure. right. exists o. split; [exact Ho|].
              right. exists n. split; [exact Hn|]. right. exists br. auto.
           ++ intros i Hi. split.
              ** intros F. apply parse_first_failure. right. exists o. split; [exact Ho|].
                 right. exists n. split; [exact Hn|]. right. exists br.
                 split; [exact Hbr|]. split; [exact Hnn|]. right. exists i. auto.
              ** intros b Hb F. apply parse_first_failure. right. exists o.
                 split; [exact Ho|]. right. exists n. split; [exact Hn|].
                 right. exists br. split; [exact Hbr|]. split; [exact Hnn|].
                 right. exists i. split; [exact Hi|]. right. exists b. auto.
  - intros pr A. rewrite get_pull_request_details_outcome, A. split.
    + intros ->. reflexivity.
    + intros data ->. cbn [obind]. split; [intros ->; reflexivity|].
      intros i ->. cbn [obind]. split; [intros ->; reflexivity|].
      intros u ->. cbn [obind]. split; [intros ->; reflexivity|].
      intros c -> ->. reflexivity.
  - intros h o n A Hsub. now rewrite placeholder_issue_outcome, A, Hsub.
  - intros h i t b A Hsub. now rewrite update_pull_request_outcome, A, Hsub.
  - intros h r b c A Hsub. now rewrite create_branch_outcome, A, Hsub.
  - intros h r c b A Hsub. now rewrite merge_into_branch_outcome, A, Hsub.
  - intros h A Hsub. now rewrite get_username_outcome, A, Hsub.
Qed.

(** X10.  [_parse_repository_from_dict] reads the owner and the name before
    it looks at the default branch, and [id] and [isFork] only after.  So a
    node with a [null] default branch yields the error Result whether or not
    it has [id] and [isFork], and whatever upstream was passed; and a node
    whose [owner] cannot be read raises even when its default branch is
    [null]. *)
Theorem X10_parse_reads_owner_first (j : json) (h : string) (up : option Repository) :
  (forall o n,
      subscript j ["owner"; "login"] = Return o ->
      getitem j "name" = Return n ->
      getitem j "defaultBranchRef" = Return JNull ->
      gettext NO_DEFAULT_BRANCH_TEMPLATE = NO_DEFAULT_BRANCH_TEMPLATE ->
      _parse_repository_from_dict j h up
      = Return (Error (no_default_branch_text (new_main_link h (fstr o) (fstr n)))))
  /\ (forall e,
        subscript j ["owner"; "login"] = Raise e ->
        _parse_repository_from_dict j h up = Raise e).
Proof.
  unfold _parse_repository_from_dict. cbn [subscript]. split.
  - intros o n Ho Hn Hb G.
    destruct (getitem j "owner") as [ow|]; cbn [obind] in *; [|discriminate].
    destruct (getitem ow "login") as [lg|]; cbn [obind] in *; [|discriminate].
    injection Ho as ->. rewrite Hn, Hb. cbn [obind is_None].
    rewrite G, percent_format_template. reflexivity.
  - intros e He.
    destruct (getitem j "owner") as [ow|]; cbn [obind] in *;
      [|injection He as ->; reflexivity].
    destruct (getitem ow "login") as [lg|]; cbn [obind] in *;
      [discriminate | injection He as ->; reflexivity].
Qed.

Ltac own_payload G :=
  unfold bind, await_make_request, lift, ret in G; cbv zeta in G;
  match type of G with
  | context [make_request ?r _] =>
      exists r; destruct (make_request r _) as [[?ok | ?] ?w]; [|discriminate G]
  end.

(** X11.  The payload of a successful [create_branch], [merge_into_branch],
    [get_username] or [create_pull_request_placeholder_issue] is read from
    the transport's reply at the operation's path and from nowhere else; in
    particular the oid returned by [merge_into_branch] is the reply's
    merge-commit oid, whatever oid was sent to be merged. *)
Theorem X11_payload_read_from_reply (s s' : session) (v : json) :
  (forall h r b c,
      create_branch h r b c s = (Return (Ok v), s') ->
      exists req ok w,
        make_request req (transport s) = (Ok ok, w)
        /\ subscript ok ["data"; "createRef"; "ref"; "id"] = Return v)
  /\ (forall h r c b,
        merge_into_branch h r c b s = (Return (Ok v), s') ->
        exists req ok w,
          make_request req (transport s) = (Ok ok, w)
          /\ subscript ok ["data"; "mergeBranch"; "mergeCommit"; "oid"] = Return v)
  /\ (forall h,
        get_username h s = (Return (Ok v), s') ->
        exists req ok w,
          make_request req (transport s) = (Ok ok, w)
          /\ subscript ok ["data"; "viewer"; "login"] = Return v)
  /\ (forall h o n,
        create_pull_request_placeholder_issue h o n s = (Return (Ok v), s') ->
        exists req ok w,
          make_request req (transport s) = (Ok ok, w)
          /\ getitem ok "number" = Return v).
Proof.
  repeat split.
  - intros h r b c G. unfold create_branch in G. own_payload G.
    exists ok, w. destruct (subscript ok _) as [v'|]; [|discriminate].
    injection G as -> _. auto.
  - intros h r c b G. unfold merge_into_branch in G. own_payload G.
    exists ok, w. destruct (subscript ok _) as [v'|]; [|discriminate].
    injection G as -> _. auto.
  - intros h G. unfold get_username in G. own_payload G.
    exists ok, w. destruct (subscript ok _) as [v'|]; [|discriminate].
    injection G as -> _. auto.
  - intros h o n G. unfold create_pull_request_placeholder_issue in G. own_payload G.
    exists ok, w. destruct (getitem ok "number") as [v'|]; [|discriminate].
    injection G as -> _. auto.
Qed.

Lemma parse_error_inv (j : json) (h : string) (up : option Repository) (e : string) :
  _parse_repository_from_dict j h up = Return (Error e) ->
  getitem j "defaultBranchRef" = Return JNull.
Proof.
  unfold _parse_repository_from_dict. intros P.
  destruct (getitem j "owner") as [ow|]; cbn [obind] in *; [|discriminate].
  destruct (getitem ow "login") as [lg|]; cbn [obind] in *; [|discriminate].
  destruct (getitem j "name") as [nm|]; cbn [obind] in *; [|discriminate].
  destruct (getitem j "defaultBranchRef") as [br|]; cbn [obind] in *; [|discriminate].
  destruct br; cbn [is_None] in P; try reflexivity;
    (destruct (getitem j "id"); cbn [obind] in P; [|discriminate];
     destruct (getitem _ "name"); cbn [obind] in P; [|discriminate];
     destruct (getitem j "isFork"); cbn [obind] in P; discriminate).
Qed.

(** X12.  The only error [get_repository] makes itself is the missing
    default branch: an error Result it returns is either the transport's
    own, or comes with a reply in which the default branch of the target,
    or of a truthy parent, is [null]. *)
Theorem X12_repository_errors (h o n : string) (s s' : session) (e : string) :
  get_repository h o n s = (Return (Error e), s') ->
  fst (make_request (repository_request h o n) (transport s)) = Error e
  \/ exists ok w repo parent,
      make_request (repository_request h o n) (transport s) = (Ok ok, w)
      /\ subscript ok ["data"; "repository"] = Return repo
      /\ getitem repo "parent" = Return parent
      /\ (getitem repo "defaultBranchRef" = Return JNull
          \/ (truthy parent = true
              /\ getitem parent "defaultBranchRef" = Return JNull)).
Proof.
  intros G.
  destruct (make_request (repository_request h o n) (transport s)) as [[ok|e'] w] eqn:Hreq.
  - right.
    unfold get_repository, bind in G. cbv zeta in G.
    fold (repository_request h o n) in G.
    rewrite (await_make_request_run _ _ _ _ Hreq) in G. unfold lift, ret in G.
    destruct (getitem ok "data") as [data|] eqn:Hdata; [|discriminate].
    destruct (getitem data "repository") as [repo|] eqn:Hrepo; [|discriminate].
    destruct (getitem repo "parent") as [parent|] eqn:Hparent; [|discriminate].
    exists ok, w, repo, parent.
    split; [reflexivity|].
    split; [cbn [subscript]; rewrite Hdata; cbn [obind]; rewrite Hrepo; reflexivity|].
    split; [exact Hparent|].
    destruct (truthy parent).
    + destruct (_parse_repository_from_dict parent h None) as [[u|ep]|] eqn:Pp;
        try discriminate.
      * left.
        destruct (_parse_repository_from_dict repo h (Some u)) as [res|] eqn:Pr;
          [|discriminate].
        injection G as -> _. exact (parse_error_inv _ _ _ _ Pr).
      * right. split; [reflexivity|]. exact (parse_error_inv _ _ _ _ Pp).
    + left.
      destruct (_parse_repository_from_dict repo h None) as [res|] eqn:Pr; [|discriminate].
      injection G as -> _. exact (parse_error_inv _ _ _ _ Pr).
  - left.
    unfold get_repository, bind in G. cbv zeta in G.
    fold (repository_request h o n) in G.
    rewrite (await_make_request_run _ _ _ _ Hreq) in G. unfold ret in G.
    injection G as -> _. reflexivity.
Qed.

End GhSubmit.

(** ** The claims on concrete sessions *)

(** C1, instance: the fork reply gives a Repository with [is_fork] true and
    an upstream, the parent being truthy. *)
Lemma C1_witness :
  exists r s',
    get_repository scripted scripted_make_request untranslated plain_str documents
      "github.com" "acme" "widgets" {| transport := [Ok fork_reply]; issued := [] |}
    = (Return (Ok r), s')
    /\ exists ok w parent,
        scripted_make_request (repository_request documents "github.com" "acme" "widgets")
          [Ok fork_reply] = (Ok ok, w)
        /\ subscript ok ["data"; "repository"; "isFork"] = Return (is_fork r)
        /\ subscript ok ["data"; "repository"; "parent"] = Return parent
        /\ (upstream r = None <-> truthy parent = false).
Proof.
  eexists. eexists.
  assert (H : get_repository scripted scripted_make_request untranslated plain_str documents
                "github.com" "acme" "widgets" {| transport := [Ok fork_reply]; issued := [] |}
              = (Return (Ok (repository_of (acme_node true (Some "dev")) "github.com" "dev"
                               (Some (repository_of
                                        (parent_node "upstream-org" "widgets" false (Some "main"))
                                        "github.com" "main" None)))),
                 {| transport := [];
                    issued := [repository_request documents "github.com" "acme" "widgets"] |}))
    by reflexivity.
  split; [exact H|].
  exact (C1_upstream_follows_parent scripted scripted_make_request untranslated plain_str
           documents "github.com" "acme" "widgets" _ _ _ H).
Defined.

(** C1, the claim as stated fails: a reply with [isFork] false and a parent
    yields a Repository with [is_fork] false whose upstream is present. *)
Lemma C1_counterexample :
  ~ (forall r s',
        get_repository scripted scripted_make_request untranslated plain_str documents
          "github.com" "acme" "widgets"
          {| transport := [Ok stray_parent_reply]; issued := [] |}
        = (Return (Ok r), s') ->
        is_fork r = JBool false -> upstream r = None).
Proof.
  intros claim.
  specialize (claim _ _ eq_refl eq_refl).
  discriminate claim.
Qed.

(** C5, instance: the parent of the reply is itself a fork; the upstream
    returned is marked as a fork and has no upstream. *)
Lemma C5_witness :
  exists r s',
    get_repository scripted scripted_make_request untranslated plain_str documents
      "github.com" "acme" "widgets" {| transport := [Ok fork_of_fork_reply]; issued := [] |}
    = (Return (Ok r), s')
    /\ exists u, upstream r = Some u /\ is_fork u = JBool true /\ upstream u = None.
Proof.
  eexists. eexists.
  assert (H : get_repository scripted scripted_make_request untranslated plain_str documents
                "github.com" "acme" "widgets"
                {| transport := [Ok fork_of_fork_reply]; issued := [] |}
              = (Return (Ok (repository_of (acme_node true (Some "dev")) "github.com" "dev"
                               (Some (repository_of
                                        (parent_node "middle-org" "widgets" true (Some "main"))
                                        "github.com" "main" None)))),
                 {| transport := [];
                    issued := [repository_request documents "github.com" "acme" "widgets"] |}))
    by reflexivity.
  split; [exact H|].
  apply (proj2 (C5_one_level_of_ancestry scripted scripted_make_request untranslated plain_str
                  documents "github.com" "acme" "widgets" _ _ _ H)
           fork_of_fork_reply []); reflexivity.
Defined.

(** C3, instance: an empty repository without a parent is reported under
    its own owner and name. *)
Lemma C3_witness :
  get_repository scripted scripted_make_request untranslated plain_str documents
    "github.com" "acme" "widgets" {| transport := [Ok empty_target_reply]; issued := [] |}
  = (Return (Error (no_default_branch_text "https://github.com/acme/widgets/new/main")),
     {| transport := [];
        issued := [repository_request documents "github.com" "acme" "widgets"] |})
  /\ contains "github.com"
       (no_default_branch_text "https://github.com/acme/widgets/new/main") = true
  /\ contains "acme" (no_default_branch_text "https://github.com/acme/widgets/new/main") = true
  /\ contains "widgets"
       (no_default_branch_text "https://github.com/acme/widgets/new/main") = true
  /\ contains "to initialize your"
       (no_default_branch_text "https://github.com/acme/widgets/new/main") = true.
Proof.
  apply (C3_missing_default_branch scripted scripted_make_request untranslated plain_str
           documents "github.com" "acme" "widgets"
           {| transport := [Ok empty_target_reply]; issued := [] |}
           empty_target_reply [] (acme_node false None) None); reflexivity.
Defined.

(** C3, the claim as stated fails: when the parent has no default branch
    either, the error names the parent, and neither the owner nor the name
    of the target occurs in the message. *)
Lemma C3_counterexample :
  subscript empty_both_reply ["data"; "repository"; "defaultBranchRef"] = Return JNull
  /\ exists message s',
      get_repository scripted scripted_make_request untranslated plain_str documents
        "github.com" "acme" "widgets" {| transport := [Ok empty_both_reply]; issued := [] |}
      = (Return (Error message), s')
      /\ contains "acme" message = false
      /\ contains "widgets" message = false.
Proof.
  split; [reflexivity|].
  eexists. eexists. split; [reflexivity|]. split; vm_compute; reflexivity.
Qed.

(** C4, instance: a fork of an empty repository; the outcome is the
    parent's error. *)
Lemma C4_witness :
  fst (get_repository scripted scripted_make_request untranslated plain_str documents
         "github.com" "acme" "widgets"
         {| transport := [Ok empty_parent_reply]; issued := [] |})
  = _parse_repository_from_dict untranslated plain_str
      (repo_json "R_1" "upstream-org" "gadgets" false JNull JNull) "github.com" None
  /\ (forall r,
        fst (get_repository scripted scripted_make_request untranslated plain_str documents
               "github.com" "acme" "widgets"
               {| transport := [Ok empty_parent_reply]; issued := [] |})
        <> Return (Ok r))
  /\ (untranslated NO_DEFAULT_BRANCH_TEMPLATE = NO_DEFAULT_BRANCH_TEMPLATE ->
      fst (get_repository scripted scripted_make_request untranslated plain_str documents
             "github.com" "acme" "widgets"
             {| transport := [Ok empty_parent_reply]; issued := [] |})
      = Return (Error (no_default_branch_text
                         "https://github.com/upstream-org/gadgets/new/main"))).
Proof.
  apply (C4_parent_error_returned scripted scripted_make_request untranslated plain_str
           documents "github.com" "acme" "widgets"
           {| transport := [Ok empty_parent_reply]; issued := [] |}
           empty_parent_reply [] (acme_node true (Some "dev"))
           (parent_node "upstream-org" "gadgets" false None)); reflexivity.
Defined.

(** C10, instance: neither the fork nor its parent has a default branch;
    the message names upstream-org/gadgets. *)
Lemma C10_witness :
  _parse_repository_from_dict untranslated plain_str
    (repo_json "R_1" "upstream-org" "gadgets" false JNull JNull) "github.com" None
  = Return (Error (no_default_branch_text "https://github.com/upstream-org/gadgets/new/main"))
  /\ get_repository scripted scripted_make_request untranslated plain_str documents
       "github.com" "acme" "widgets" {| transport := [Ok empty_both_reply]; issued := [] |}
     = (Return (Error (no_default_branch_text
                         "https://github.com/upstream-org/gadgets/new/main")),
        {| transport := [];
           issued := [repository_request documents "github.com" "acme" "widgets"] |})
  /\ contains "upstream-org"
       (no_default_branch_text "https://github.com/upstream-org/gadgets/new/main") = true
  /\ contains "gadgets"
       (no_default_branch_text "https://github.com/upstream-org/gadgets/new/main") = true.
Proof.
  apply (C10_parent_reported_first scripted scripted_make_request untranslated plain_str
           documents "github.com" "acme" "widgets"
           {| transport := [Ok empty_both_reply]; issued := [] |}
           empty_both_reply [] (acme_node true None)
           (parent_node "upstream-org" "gadgets" false None)); reflexivity.
Defined.

(** C8, instance: the service echoes the id it was sent. *)
Lemma C8_witness :
  update_pull_request scripted scripted_make_request documents
    "github.com" "PR_1" "title" "body" {| transport := [Ok (update_reply "PR_1")]; issued := [] |}
  = (Return (Ok (JStr "PR_1")),
     {| transport := [];
        issued := [mkRequest [("query", PStr "mutation UpdatePullRequest");
                              ("pullRequestId", PStr "PR_1");
                              ("title", PStr "title");
                              ("body", PStr "body")] "github.com" None] |})
  /\ exists req ok w,
      params_get (params req) "pullRequestId" = Some (PStr "PR_1")
      /\ scripted_make_request req [Ok (update_reply "PR_1")] = (Ok ok, w)
      /\ subscript ok ["data"; "updatePullRequest"; "pullRequest"; "id"]
         = Return (JStr "PR_1")
      /\ (JStr "PR_1" = JStr "PR_1" <->
          subscript ok ["data"; "updatePullRequest"; "pullRequest"; "id"]
          = Return (JStr "PR_1")).
Proof.
  assert (H : update_pull_request scripted scripted_make_request documents
                "github.com" "PR_1" "title" "body"
                {| transport := [Ok (update_reply "PR_1")]; issued := [] |}
              = (Return (Ok (JStr "PR_1")),
                 {| transport := [];
                    issued := [mkRequest [("query", PStr "mutation UpdatePullRequest");
                                          ("pullRequestId", PStr "PR_1");
                                          ("title", PStr "title");
                                          ("body", PStr "body")] "github.com" None] |}))
    by reflexivity.
  split; [exact H|].
  exact (C8_update_returns_reported_id scripted scripted_make_request documents
           "github.com" "PR_1" "title" "body" _ _ _ H).
Defined.

(** C8, the claim as stated fails: the service reports another id, the call
    succeeds, and the payload is the reported id, not the one passed in. *)
Lemma C8_counterexample :
  ~ (forall v s',
        update_pull_request scripted scripted_make_request documents
          "github.com" "PR_1" "title" "body"
          {| transport := [Ok (update_reply "PR_2")]; issued := [] |}
        = (Return (Ok v), s') ->
        v = JStr "PR_1").
Proof.
  intros claim.
  specialize (claim _ _ eq_refl).
  discriminate claim.
Qed.

(** C9, instances: the transport answers with an error and [get_username]
    hands it on; the transport answers with a [null] pull request and
    [get_pull_request_details] raises on its first field. *)
Lemma C9_witness :
  fst (get_username scripted scripted_make_request documents "github.com"
         {| transport := [Error "HTTP 403"]; issued := [] |})
  = Return (Error "HTTP 403")
  /\ fst (get_pull_request_details scripted scripted_make_request documents
            (mkPullRequestId "github.com" "acme" "widgets" 7)
            {| transport := [Ok missing_pull_request_reply]; issued := [] |})
     = Raise TypeError.
Proof.
  split.
  - destruct (C9_results_without_raising scripted scripted_make_request untranslated
                plain_str documents {| transport := [Error "HTTP 403"]; issued := [] |})
      as (_ & E & _).
    destruct (E "HTTP 403") as (_ & _ & _ & _ & _ & _ & U).
    apply (U "github.com"). reflexivity.
  - destruct (C9_results_without_raising scripted scripted_make_request untranslated
                plain_str documents
                {| transport := [Ok missing_pull_request_reply]; issued := [] |})
      as (_ & _ & _ & R).
    destruct (R missing_pull_request_reply TypeError) as (_ & _ & D & _).
    apply (D (mkPullRequestId "github.com" "acme" "widgets" 7) JNull);
      [reflexivity | reflexivity | left; reflexivity].
Defined.

(** C9, the claim as stated fails: on a success reply whose [pullRequest]
    is [null], [get_pull_request_details] raises [TypeError] and returns no
    Result. *)
Lemma C9_counterexample :
  get_pull_request_details scripted scripted_make_request documents
    (mkPullRequestId "github.com" "acme" "widgets" 7)
    {| transport := [Ok missing_pull_request_reply]; issued := [] |}
  = (Raise TypeError,
     {| transport := [];
        issued := [mkRequest [("query", PStr "query GetPullRequest");
                              ("owner", PStr "acme");
                              ("name", PStr "widgets");
                              ("number", PInt 7)] "github.com" None] |})
  /\ ~ (exists result s',
          get_pull_request_details scripted scripted_make_request documents
            (mkPullRequestId "github.com" "acme" "widgets" 7)
            {| transport := [Ok missing_pull_request_reply]; issued := [] |}
          = (Return result, s')).
Proof.
  split; [reflexivity|].
  intros (result & s' & H). discriminate H.
Qed.

(** ** The further properties on concrete sessions *)

Lemma X2_witness :
  Forall (fun r => well_addressed r = true)
    (issued scripted (snd (create_pull_request scripted scripted_make_request
                    "github.com" "acme" "widgets" "main" "pr7" "text" 42 false
                             {| transport := [Error "HTTP 422"]; issued := [] |}))).
Proof.
  destruct (X2_requests_well_addressed scripted scripted_make_request untranslated plain_str
              documents {| transport := [Error "HTTP 422"]; issued := [] |}
              (Forall_nil _)) as (_ & _ & _ & H & _).
  exact (H "github.com" "acme" "widgets" "main" "pr7" "text" 42%Z false).
Defined.

Lemma X3_witness :
  exists r s',
    get_repository scripted scripted_make_request untranslated plain_str documents
      "github.com" "ACME" "Widgets" {| transport := [Ok fork_reply]; issued := [] |}
    = (Return (Ok r), s')
    /\ hostname r = "github.com"
    /\ owner r = JStr "acme"
    /\ (forall u, upstream r = Some u -> hostname u = "github.com").
Proof.
  eexists. eexists.
  assert (H : get_repository scripted scripted_make_request untranslated plain_str documents
                "github.com" "ACME" "Widgets" {| transport := [Ok fork_reply]; issued := [] |}
              = (Return (Ok (repository_of (acme_node true (Some "dev")) "github.com" "dev"
                               (Some (repository_of
                                        (parent_node "upstream-org" "widgets" false (Some "main"))
                                        "github.com" "main" None)))),
                 {| transport := [];
                    issued := [repository_request documents "github.com" "ACME" "Widgets"] |}))
    by reflexivity.
  split; [exact H|].
  destruct (X3_repository_read_from_reply scripted scripted_make_request untranslated plain_str
              documents "github.com" "ACME" "Widgets" _ _ _ H) as (Hh & Hu & _).
  split; [exact Hh|]. split; [reflexivity | exact Hu].
Defined.

Lemma X4_witness :
  exists result,
    fst (get_repository scripted scripted_make_request untranslated plain_str documents
           "github.com" "acme" "widgets"
           {| transport := [Ok empty_parent_reply]; issued := [] |})
    = Return result
    /\ (is_error result = true <->
        node_default_branch (acme_node true (Some "dev")) = None
        \/ exists p, Some (parent_node "upstream-org" "gadgets" false None) = Some p
                     /\ node_default_branch p = None).
Proof.
  apply (X4_fails_iff_branch_missing scripted scripted_make_request untranslated plain_str
           documents "github.com" "acme" "widgets"
           {| transport := [Ok empty_parent_reply]; issued := [] |}
           empty_parent_reply []); reflexivity.
Defined.

Lemma X5_witness :
  exists r,
    fst (get_repository scripted scripted_make_request untranslated plain_str documents
           "github.com" "acme" "widgets" {| transport := [Ok fork_reply]; issued := [] |})
    = Return (Ok r)
    /\ Some (get_base_branch r) = Some (JStr "main")
    /\ get_upstream_owner_and_name r = (JStr "upstream-org", JStr "widgets").
Proof.
  apply (X5_base_of_resolved_repository scripted scripted_make_request untranslated plain_str
           documents "github.com" "acme" "widgets"
           {| transport := [Ok fork_reply]; issued := [] |}
           fork_reply [] (acme_node true (Some "dev"))
           (Some (parent_node "upstream-org" "widgets" false (Some "main"))) "dev");
    try reflexivity.
  intros p E. injection E as <-. discriminate.
Defined.

Lemma X6_witness :
  fst (get_repository scripted scripted_make_request untranslated plain_str documents
         "github.com" "acme" "widgets"
         {| transport := [Ok string_parent_reply]; issued := [] |})
  = Raise TypeError.
Proof.
  refine (proj2 (X6_parent_not_an_object scripted scripted_make_request untranslated plain_str
                   documents "github.com" "acme" "widgets"
                   {| transport := [Ok string_parent_reply]; issued := [] |}
                   string_parent_reply []
                   (repo_json "R_2" "acme" "widgets" true (branch_json "dev") (JStr "upstream"))
                   (JStr "upstream") _ _ _) _ _);
    try reflexivity.
  intros fields. discriminate.
Defined.

Lemma X7_witness :
  exists d s',
    get_pull_request_details scripted scripted_make_request documents
      (mkPullRequestId "github.com" "acme" "widgets" 7)
      {| transport := [Ok pull_request_reply]; issued := [] |}
    = (Return (Ok d), s')
    /\ number d = 7%Z.
Proof.
  eexists. eexists.
  assert (H : get_pull_request_details scripted scripted_make_request documents
                (mkPullRequestId "github.com" "acme" "widgets" 7)
                {| transport := [Ok pull_request_reply]; issued := [] |}
              = (Return (Ok (mkPullRequestDetails (JStr "PR_7") 7
                               (JStr "https://github.com/acme/widgets/pull/7")
                               (JStr "0a1b2c") (JStr "pr7"))),
                 {| transport := [];
                    issued := [mkRequest [("query", PStr "query GetPullRequest");
                                          ("owner", PStr "acme");
                                          ("name", PStr "widgets");
                                          ("number", PInt 7)] "github.com" None] |}))
    by reflexivity.
  split; [exact H|].
  exact (proj1 (X7_details_read_from_reply scripted scripted_make_request documents
                  _ _ _ _ H)).
Defined.

Lemma X8_witness :
  exists req, fst (scripted_make_request req [Error "HTTP 403"]) = Error "HTTP 403".
Proof.
  destruct (X8_errors_come_from_transport scripted scripted_make_request documents
              {| transport := [Error "HTTP 403"]; issued := [] |}
              {| transport := [];
                 issued := [mkRequest [("query", PStr "query GetLogin")] "github.com" None] |}
              "HTTP 403") as (_ & _ & _ & _ & _ & _ & H).
  exact (H "github.com" eq_refl).
Defined.

Lemma X9_witness :
  fst (get_username scripted scripted_make_request documents "github.com"
         {| transport := [Ok (JObj [])]; issued := [] |})
  = Raise (KeyError "data")
  /\ fst (get_repository scripted scripted_make_request untranslated plain_str documents
            "github.com" "acme" "widgets"
            {| transport := [Ok string_parent_reply]; issued := [] |})
     = Raise TypeError.
Proof.
  split.
  - destruct (X9_missing_field_raises scripted scripted_make_request untranslated plain_str
                documents {| transport := [Ok (JObj [])]; issued := [] |}
                (JObj []) (KeyError "data")) as (_ & _ & _ & _ & _ & _ & _ & H).
    apply (H "github.com"); reflexivity.
  - destruct (X9_missing_field_raises scripted scripted_make_request untranslated plain_str
                documents {| transport := [Ok string_parent_reply]; issued := [] |}
                string_parent_reply TypeError) as (G & P & _).
    destruct (G "github.com" "acme" "widgets" eq_refl) as (_ & Q).
    destruct (Q (repo_json "R_2" "acme" "widgets" true (branch_json "dev") (JStr "upstream"))
                (JStr "upstream") eq_refl eq_refl) as (T & _).
    apply T; [reflexivity|].
    destruct (P (JStr "upstream") "github.com" None) as (O & _).
    apply O. reflexivity.
Defined.

Lemma X10_witness :
  _parse_repository_from_dict untranslated plain_str bare_empty_node "github.com" None
  = Return (Error (no_default_branch_text "https://github.com/acme/widgets/new/main")).
Proof.
  refine (proj1 (X10_parse_reads_owner_first untranslated plain_str bare_empty_node
                   "github.com" None) (JStr "acme") (JStr "widgets") _ _ _ _);
    reflexivity.
Defined.

Lemma X11_witness :
  exists req ok w,
    scripted_make_request req [Ok (merge_reply "fedcba")] = (Ok ok, w)
    /\ subscript ok ["data"; "mergeBranch"; "mergeCommit"; "oid"] = Return (JStr "fedcba").
Proof.
  destruct (X11_payload_read_from_reply scripted scripted_make_request documents
              {| transport := [Ok (merge_reply "fedcba")]; issued := [] |}
              {| transport := [];
                 issued := [mkRequest [("query", PStr "mutation MergeBranch");
                                       ("repositoryId", PStr "R_2");
                                       ("base", PStr "main");
                                       ("head", PStr "abcdef")] "github.com" None] |}
              (JStr "fedcba")) as (_ & H & _).
  exact (H "github.com" "R_2" "abcdef" "main" eq_refl).
Defined.

Lemma X12_witness :
  fst (scripted_make_request (repository_request documents "github.com" "acme" "widgets")
         [Ok empty_target_reply])
  = Error (no_default_branch_text "https://github.com/acme/widgets/new/main")
  \/ exists ok w repo parent,
      scripted_make_request (repository_request documents "github.com" "acme" "widgets")
        [Ok empty_target_reply] = (Ok ok, w)
      /\ subscript ok ["data"; "repository"] = Return repo
      /\ getitem repo "parent" = Return parent
      /\ (getitem repo "defaultBranchRef" = Return JNull
          \/ (truthy parent = true
              /\ getitem parent "defaultBranchRef" = Return JNull)).
Proof.
  apply (X12_repository_errors scripted scripted_make_request untranslated plain_str
           documents "github.com" "acme" "widgets"
           {| transport := [Ok empty_target_reply]; issued := [] |}
           {| transport := [];
              issued := [repository_request documents "github.com" "acme" "widgets"] |}).
  reflexivity.
Defined.
